(** * TCN-AE: the [TCNAE] class of [src/tcnae.py]

    A shallow embedding of the model builder, trainer and predictor of the
    temporal convolutional autoencoder.  The class is a thin layer over
    numpy and Keras, so the development has three parts:

    - [Numpy]: n-dimensional arrays (a shape and a row-major buffer) with
      the five array operations [predict] uses;
    - [Keras]: symbolic tensors with the shape rule of each layer used by
      [build_model], the compiled [Model], [Model.predict], [Model.fit]
      and the [EarlyStopping] callback;
    - the class itself: [__init__], [build_model], [fit],
      [predict_validation] and [predict], as state transformers over the
      object's attributes.

    Array entries are rationals: the arithmetic is the exact one that the
    floating-point code approximates.  The learned function, the optimiser
    step and the loss evaluation are parameters of the development. *)

From Stdlib Require Import String List ZArith QArith Qabs Lia Lqa Bool.
Import ListNotations.

Set Implicit Arguments.

(** ** Exceptions and fallible results *)

Inductive exn : Type :=
| ValueError      (* numpy and Keras argument and shape errors *)
| AxisError       (* numpy: axis out of bounds *)
| IndexError      (* tuple index out of range *)
| AttributeError. (* attribute access on [None] *)

Inductive result (A : Type) : Type :=
| Ok (a : A)
| Raise (e : exn).

Arguments Raise {A} e.

Definition rbind {A B} (r : result A) (k : A -> result B) : result B :=
  match r with
  | Ok a => k a
  | Raise e => Raise e
  end.

Declare Scope result_scope.
Delimit Scope result_scope with result.
Notation "x <- r ;; k" := (rbind r (fun x => k))
  (at level 61, r at next level, right associativity) : result_scope.

(** ** numpy arrays *)

Module Numpy.

Open Scope nat_scope.

(** An array is its [shape] and its entries in row-major (C) order. *)
Record ndarray : Type := mk_ndarray { shape : list nat; data : list Q }.

(** Number of entries of an array of shape [s]. *)
Definition size_of (s : list nat) : nat := fold_right Nat.mul 1 s.

Definition well_formed (a : ndarray) : Prop :=
  length (data a) = size_of (shape a).

Definition ndim (a : ndarray) : nat := length (shape a).

(** [a.shape[i]] for a non-negative literal [i]. *)
Definition shape_at (a : ndarray) (i : nat) : result nat :=
  match nth_error (shape a) i with
  | Some d => Ok d
  | None => Raise IndexError
  end.

(** [chunks k n l]: the first [k] consecutive blocks of length [n] of [l]. *)
Fixpoint chunks (k n : nat) (l : list Q) : list (list Q) :=
  match k with
  | O => []
  | S k' => firstn n l :: chunks k' n (skipn n l)
  end.

Definition zeros (n : nat) : list Q := repeat 0%Q n.

(** [numpy.pad(a, ((0, 0), (0, k), (0, 0)), 'constant')]: [k] trailing
    zero rows on axis 1 of a three-dimensional array.  A pad width that
    does not fit the rank, or a negative one, is a [ValueError]. *)
Definition pad (a : ndarray) (k : Z) : result ndarray :=
  match shape a with
  | [b; m; c] =>
      if (k <? 0)%Z then Raise ValueError
      else
        let kn := Z.to_nat k in
        Ok {| shape := [b; m + kn; c];
              data := flat_map (fun blk => blk ++ zeros (kn * c))
                               (chunks b (m * c) (data a)) |}
  | _ => Raise ValueError
  end.

(** Broadcasting of two shapes, aligned on their trailing axes; the
    shapes are given last axis first. *)
Fixpoint broadcast_rev (s t : list nat) : option (list nat) :=
  match s, t with
  | [], _ => Some t
  | _, [] => Some s
  | x :: s', y :: t' =>
      match broadcast_rev s' t' with
      | None => None
      | Some r =>
          if x =? y then Some (x :: r)
          else if x =? 1 then Some (y :: r)
          else if y =? 1 then Some (x :: r)
          else None
      end
  end.

Definition broadcast_shapes (s t : list nat) : option (list nat) :=
  option_map (@rev nat) (broadcast_rev (rev s) (rev t)).

(** Position in the buffer of an operand of shape [s] of the entry that
    is broadcast to flat position [k] of a result of shape [o] (both
    shapes last axis first): an axis of length 1 is read at index 0. *)
Fixpoint offset_rev (o s : list nat) (k : nat) : nat :=
  match o, s with
  | od :: o', sd :: s' =>
      (if sd =? 1 then 0 else k mod od) + sd * offset_rev o' s' (k / od)
  | _, _ => 0
  end.

Definition item (a : ndarray) (o : list nat) (k : nat) : Q :=
  nth (offset_rev (rev o) (rev (shape a)) k) (data a) 0%Q.

(** [a - b] with broadcasting; incompatible shapes are a [ValueError]. *)
Definition subtract (a b : ndarray) : result ndarray :=
  match broadcast_shapes (shape a) (shape b) with
  | None => Raise ValueError
  | Some o =>
      Ok {| shape := o;
            data := map (fun k => (item a o k - item b o k)%Q)
                        (seq 0 (size_of o)) |}
  end.

(** [a.squeeze()]: every axis of length 1 is removed. *)
Definition squeeze (a : ndarray) : ndarray :=
  {| shape := filter (fun d => negb (d =? 1)) (shape a);
     data := data a |}.

(** [numpy.square(a)]. *)
Definition square (a : ndarray) : ndarray :=
  {| shape := shape a; data := map (fun q => (q * q)%Q) (data a) |}.

Definition Qsum (l : list Q) : Q := fold_right Qplus 0%Q l.

Definition nonneg (q : Q) : Prop := (0 <= q)%Q.

(** Mean of a block of [n] entries.  (For [n = 0] numpy yields nan; the
    rational model yields 0.) *)
Definition mean_of (n : nat) (blk : list Q) : Q :=
  (Qsum blk / inject_Z (Z.of_nat n))%Q.

(** [numpy.mean(a, axis=-1)]: the last axis is averaged away.  A
    zero-dimensional array has no last axis: [AxisError]. *)
Definition mean_last (a : ndarray) : result ndarray :=
  match shape a with
  | [] => Raise AxisError
  | _ :: _ =>
      let outer := removelast (shape a) in
      let n := last (shape a) 0 in
      Ok {| shape := outer;
            data := map (mean_of n) (chunks (size_of outer) n (data a)) |}
  end.

End Numpy.

(** ** Keras: layers, models, training and prediction *)

(** A Python value held by the [loss] attribute: a string, or a tuple. *)
#[warnings="-register-all"]
Inductive PyObj : Type :=
| PyStr (s : string)
| PyTuple (items : list PyObj).

Module Keras.

Import Numpy.
Open Scope Z_scope.

(** Static shape of a symbolic tensor; [None] is an unknown dimension. *)
Definition TensorShape := list (option nat).

Inductive Pooler : Type := AveragePooling1D | MaxPooling1D.

Inductive Layer : Type :=
| InputLayer (batch_shape : TensorShape)
| TCNLayer (nb_filters kernel_size nb_stacks : Z) (dilations : list Z)
           (padding : string) (use_skip_connections : bool)
           (dropout_rate : Q) (return_sequences : bool)
           (kernel_initializer : string) (name : string)
| Conv1DLayer (filters kernel_size : Z) (activation padding : string)
| Pooling1DLayer (pooler : Pooler) (pool_size : Z) (padding : string)
                 (data_format : string)
| ActivationLayer (activation : string)
| UpSampling1DLayer (size : Z)
| DenseLayer (units : Z) (activation : string).

(** A symbolic tensor: its static shape and the layers that produce it
    from the input placeholder, in order of application. *)
Record KerasTensor : Type :=
  { kshape : TensorShape; history : list Layer }.

Definition after (x : KerasTensor) (l : Layer) (s : TensorShape)
  : KerasTensor :=
  {| kshape := s; history := history x ++ [l] |}.

(** [Input(batch_shape=...)]. *)
Definition Input (batch_shape : TensorShape) : KerasTensor :=
  {| kshape := batch_shape; history := [InputLayer batch_shape] |}.

(** Length of the time axis after a layer: [f] maps a known length to
    the new one, or rejects it. *)
Definition map_steps (f : nat -> result nat) (t : option nat)
  : result (option nat) :=
  match t with
  | None => Ok None
  | Some n => rbind (f n) (fun n' => Ok (Some n'))
  end.

Definition positive (z : Z) : bool := 0 <? z.

(** Length of an axis of [n] steps after pooling with pool size and
    stride [pool_size] and no padding. *)
Definition pooled_length (n : nat) (pool_size : Z) : nat :=
  Z.to_nat ((Z.of_nat n - pool_size) / pool_size + 1).

(** Length of an axis of [n] steps after repeating each step [size]
    times. *)
Definition upsampled_length (n : nat) (size : Z) : nat :=
  Z.to_nat (Z.of_nat n * size).

(** The paddings keras-tcn accepts. *)
Definition accepted_by_tcn (padding : string) : bool :=
  String.eqb padding "causal" || String.eqb padding "same".

(** The temporal convolutional network layer of keras-tcn: only 'causal'
    and 'same' padding are accepted, and the filter count and the kernel
    size must be positive.  With [return_sequences=True] the time axis
    is kept and the channels become [nb_filters]. *)
Definition TCN (nb_filters kernel_size nb_stacks : Z) (dilations : list Z)
    (padding : string) (use_skip_connections : bool) (dropout_rate : Q)
    (return_sequences : bool) (kernel_initializer name : string)
    (x : KerasTensor) : result KerasTensor :=
  let l := TCNLayer nb_filters kernel_size nb_stacks dilations padding
             use_skip_connections dropout_rate return_sequences
             kernel_initializer name in
  if negb (accepted_by_tcn padding)
  then Raise ValueError
  else if negb (positive nb_filters && positive kernel_size)
  then Raise ValueError
  else
    match kshape x with
    | [b; t; _] =>
        if return_sequences
        then Ok (after x l [b; t; Some (Z.to_nat nb_filters)])
        else Ok (after x l [b; Some (Z.to_nat nb_filters)])
    | _ => Raise ValueError
    end.

(** [Conv1D(filters, kernel_size, activation, padding)], stride 1, with
    a positive filter count and kernel size: 'same' and 'causal' padding
    keep the time axis, 'valid' shortens it by [kernel_size - 1]. *)
Definition Conv1D (filters kernel_size : Z) (activation padding : string)
    (x : KerasTensor) : result KerasTensor :=
  let l := Conv1DLayer filters kernel_size activation padding in
  if negb (positive filters && positive kernel_size) then Raise ValueError
  else
    match kshape x with
    | [b; t; _] =>
        (t' <- map_steps (fun n =>
                 if String.eqb padding "same" || String.eqb padding "causal"
                 then Ok n
                 else if String.eqb padding "valid"
                 then (if Z.of_nat n <? kernel_size then Raise ValueError
                       else Ok (Z.to_nat (Z.of_nat n - kernel_size + 1)))
                 else Raise ValueError) t ;;
         Ok (after x l [b; t'; Some (Z.to_nat filters)]))%result
    | _ => Raise ValueError
    end.

(** [pooler(pool_size, strides=None, padding='valid', data_format=
    'channels_last')] for either one-dimensional pooling layer: the
    stride is the pool size, and a time axis of length [n] becomes
    [(n - pool_size) / pool_size + 1]; a pool larger than the axis is
    rejected. *)
Definition Pooling1D (pooler : Pooler) (pool_size : Z)
    (padding data_format : string) (x : KerasTensor)
  : result KerasTensor :=
  let l := Pooling1DLayer pooler pool_size padding data_format in
  if negb (positive pool_size) then Raise ValueError
  else if negb (String.eqb padding "valid") then Raise ValueError
  else
    match kshape x with
    | [b; t; c] =>
        (t' <- map_steps (fun n =>
                 if Z.of_nat n <? pool_size then Raise ValueError
                 else Ok (pooled_length n pool_size)) t ;;
         Ok (after x l [b; t'; c]))%result
    | _ => Raise ValueError
    end.

(** [Activation(name)]: elementwise, the shape is kept. *)
Definition Activation (activation : string) (x : KerasTensor)
  : KerasTensor :=
  after x (ActivationLayer activation) (kshape x).

(** [UpSampling1D(size)] for a positive [size]: every time step is
    repeated [size] times. *)
Definition UpSampling1D (size : Z) (x : KerasTensor) : result KerasTensor :=
  if negb (positive size) then Raise ValueError
  else
    match kshape x with
    | [b; t; c] =>
        (t' <- map_steps (fun n => Ok (upsampled_length n size)) t ;;
         Ok (after x (UpSampling1DLayer size) [b; t'; c]))%result
    | _ => Raise ValueError
    end.

(** [Dense(units, activation)] for a positive [units]: applied to the
    last axis, which becomes [units]. *)
Definition Dense (units : Z) (activation : string) (x : KerasTensor)
  : result KerasTensor :=
  if negb (positive units) then Raise ValueError
  else
    match kshape x with
    | [] => Raise ValueError
    | s => Ok (after x (DenseLayer units activation)
                 (removelast s ++ [Some (Z.to_nat units)]))
    end.

(** [optimizers.Adam(...)]. *)
Record Adam : Type :=
  { learning_rate : Q; beta_1 : Q; beta_2 : Q; epsilon : Q;
    amsgrad : bool }.

(** A model: its endpoints, what [compile] recorded, the trainable
    parameters (flattened), the running moments of the optimiser and
    the [stop_training] flag. *)
Record Model : Type :=
  { inputs : list KerasTensor;
    outputs : list KerasTensor;
    compiled_loss : option PyObj;
    optimizer : option Adam;
    compiled_metrics : list PyObj;
    weights : list Q;
    slots : list Q;
    stop_training : bool }.

(** The layers of a model, input first. *)
Definition graph (m : Model) : list Layer := flat_map history (outputs m).

(** [model.set_weights(w)]: the optimiser's moments are not touched. *)
Definition set_weights (m : Model) (w : list Q) : Model :=
  {| inputs := inputs m; outputs := outputs m;
     compiled_loss := compiled_loss m; optimizer := optimizer m;
     compiled_metrics := compiled_metrics m;
     weights := w; slots := slots m; stop_training := stop_training m |}.

(** The effect of one epoch of optimisation on the model. *)
Definition set_trained (m : Model) (ws : list Q * list Q) : Model :=
  {| inputs := inputs m; outputs := outputs m;
     compiled_loss := compiled_loss m; optimizer := optimizer m;
     compiled_metrics := compiled_metrics m;
     weights := fst ws; slots := snd ws;
     stop_training := stop_training m |}.

Definition set_stop_training (m : Model) (b : bool) : Model :=
  {| inputs := inputs m; outputs := outputs m;
     compiled_loss := compiled_loss m; optimizer := optimizer m;
     compiled_metrics := compiled_metrics m;
     weights := weights m; slots := slots m; stop_training := b |}.

(** [model.compile(loss=..., optimizer=..., metrics=...)]. *)
Definition compile (m : Model) (loss : PyObj) (opt : Adam)
    (metrics : list PyObj) : Model :=
  {| inputs := inputs m; outputs := outputs m;
     compiled_loss := Some loss; optimizer := Some opt;
     compiled_metrics := metrics;
     weights := weights m; slots := slots m;
     stop_training := stop_training m |}.

(** What the framework computes and this development leaves open:
    - [initializer]: the initial parameters of a graph;
    - [forward]: the function a parameter vector denotes, as entry [k]
      of the flattened output for an input array;
    - [train_epoch]: one epoch of optimisation of a model on inputs [x]
      and targets [y] with a batch size, the shuffle flag and the epoch
      number, giving the new parameters and optimiser moments;
    - [evaluate]: the loss of a parameter vector on inputs and targets;
    - [keras3]: whether the callback restores the best parameters at
      the end of training (Keras 3) or at the moment it stops training
      (tf.keras 2.4 and later). *)
Record Backend : Type :=
  { initializer : list Layer -> list Q;
    forward : list Layer -> list Q -> ndarray -> nat -> Q;
    train_epoch : Model -> ndarray -> ndarray -> Z -> bool -> Z
                  -> list Q * list Q;
    evaluate : list Layer -> option PyObj -> list Q -> ndarray -> ndarray
               -> Q;
    keras3 : bool }.

(** The [EarlyStopping] callback: its arguments and its running state.
    For a monitored loss the mode is "min": [min_delta] is stored
    negated and [best] starts at infinity ([None]). *)
Record EarlyStopping : Type :=
  { monitor : string;
    patience : Z;
    min_delta : Q;
    restore_best_weights : bool;
    wait : Z;
    best : option Q;
    best_weights : option (list Q);
    stopped_epoch : Z }.

Definition new_EarlyStopping (monitor : string) (patience : Z)
    (min_delta : Q) (restore_best_weights : bool) : EarlyStopping :=
  {| monitor := monitor; patience := patience;
     min_delta := (- Qabs min_delta)%Q;
     restore_best_weights := restore_best_weights;
     wait := 0; best := None; best_weights := None; stopped_epoch := 0 |}.

Definition on_train_begin (es : EarlyStopping) : EarlyStopping :=
  {| monitor := monitor es; patience := patience es;
     min_delta := min_delta es;
     restore_best_weights := restore_best_weights es;
     wait := 0; best := None; best_weights := None; stopped_epoch := 0 |}.

Definition update (es : EarlyStopping) (wait : Z) (best : option Q)
    (best_weights : option (list Q)) (stopped_epoch : Z) : EarlyStopping :=
  {| monitor := monitor es; patience := patience es;
     min_delta := min_delta es;
     restore_best_weights := restore_best_weights es;
     wait := wait; best := best; best_weights := best_weights;
     stopped_epoch := stopped_epoch |}.

(** The quantities logged at the end of an epoch. *)
Record Logs : Type := { val_loss : Q }.

Definition get_monitor_value (es : EarlyStopping) (logs : Logs)
  : option Q :=
  if String.eqb (monitor es) "val_loss" then Some (val_loss logs) else None.

Definition Qltb (x y : Q) : bool := negb (Qle_bool y x).

(** What the framework keeps with a model object besides the model: the
    prediction function, which [predict] makes from the graph of the
    model at its first call and reuses at every later one.  A model that
    has just been compiled has none. *)
Record Session : Type := { predict_function : option (list Layer) }.



(** [monitor_op(current - min_delta, best)] with [monitor_op = less]. *)
Definition is_improvement (es : EarlyStopping) (current : Q)
    (reference : option Q) : bool :=
  match reference with
  | None => true
  | Some r => Qltb (current - min_delta es) r
  end.

Section WithBackend.

Variable tf : Backend.

(** [Model(inputs=[i], outputs=[o])]: a fresh, uncompiled model with
    freshly initialised parameters. *)
Definition new_Model (inputs outputs : list KerasTensor) : Model :=
  {| inputs := inputs; outputs := outputs;
     compiled_loss := None; optimizer := None; compiled_metrics := [];
     weights := initializer tf (flat_map history outputs);
     slots := [];
     stop_training := false |}.

(** The validation loss of the model as it stands. *)
Definition validation_loss (m : Model) (validation_data : ndarray * ndarray)
  : Q :=
  evaluate tf (graph m) (compiled_loss m) (weights m)
    (fst validation_data) (snd validation_data).

(** [EarlyStopping.on_epoch_end]. *)
Definition on_epoch_end (es : EarlyStopping) (epoch : Z) (logs : Logs)
    (m : Model) : EarlyStopping * Model :=
  match get_monitor_value es logs with
  | None => (es, m)
  | Some current =>
      let bw0 :=
        match best_weights es with
        | None => if restore_best_weights es then Some (weights m)
                  else None
        | Some w => Some w
        end in
      let wait1 := wait es + 1 in
      let improved := is_improvement es current (best es) in
      let best1 := if improved then Some current else best es in
      let bw1 := if improved && restore_best_weights es
                 then Some (weights m) else bw0 in
      let wait2 := if improved then 0 else wait1 in
      if improved && keras3 tf then (update es wait2 best1 bw1 (stopped_epoch es), m)
      else if (patience es <=? wait2) && (0 <? epoch) then
        let m1 := set_stop_training m true in
        let m2 :=
          match bw1 with
          | Some w => if restore_best_weights es && negb (keras3 tf)
                      then set_weights m1 w else m1
          | None => m1
          end in
        (update es wait2 best1 bw1 epoch, m2)
      else (update es wait2 best1 bw1 (stopped_epoch es), m)
  end.

(** [EarlyStopping.on_train_end]. *)
Definition on_train_end (es : EarlyStopping) (m : Model) : Model :=
  match best_weights es with
  | Some w => if restore_best_weights es && keras3 tf
              then set_weights m w else m
  | None => m
  end.

(** The callbacks of a list run in order. *)
Fixpoint callbacks_on_epoch_end (cbs : list EarlyStopping) (epoch : Z)
    (logs : Logs) (m : Model) : list EarlyStopping * Model :=
  match cbs with
  | [] => ([], m)
  | es :: rest =>
      let '(es', m1) := on_epoch_end es epoch logs m in
      let '(rest', m2) := callbacks_on_epoch_end rest epoch logs m1 in
      (es' :: rest', m2)
  end.

Definition callbacks_on_train_end (cbs : list EarlyStopping) (m : Model)
  : Model :=
  fold_left (fun m es => on_train_end es m) cbs m.

(** Does a concrete shape fit a static one? *)
Fixpoint compatible (spec : TensorShape) (s : list nat) : bool :=
  match spec, s with
  | [], [] => true
  | None :: spec', _ :: s' => compatible spec' s'
  | Some n :: spec', d :: s' => (n =? d)%nat && compatible spec' s'
  | _, _ => false
  end.

(** A static shape with its unknown dimensions set to [b]. *)
Definition concrete (b : nat) (spec : TensorShape) : list nat :=
  map (fun o => match o with None => b | Some n => n end) spec.

(** [model.predict(x)] for a model of one input and one output: the
    array must fit the input placeholder and hold at least one
    sample; the result has the static output shape with the batch
    size of [x]. *)
Definition predict (m : Model) (x : ndarray) : result ndarray :=
  match inputs m, outputs m, shape x with
  | [i], [o], b :: _ =>
      if negb (compatible (kshape i) (shape x)) then Raise ValueError
      else if (b =? 0)%nat then Raise ValueError
      else
        let s := concrete b (kshape o) in
        Ok {| shape := s;
              data := map (forward tf (history o) (weights m) x)
                          (seq 0 (size_of s)) |}
  | _, _, _ => Raise ValueError
  end.

(** [model.predict(x)] as a call on the model object with its session:
    the prediction function is made if there is none, it computes the
    array with the parameters of the model as they are, and it is kept
    in the session. *)
Definition predict_call (m : Model) (s : Session) (x : ndarray)
  : result (ndarray * Session) :=
  match inputs m, outputs m, shape x with
  | [i], [o], b :: _ =>
      let f := match predict_function s with
               | Some g => g
               | None => history o
               end in
      if negb (compatible (kshape i) (shape x)) then Raise ValueError
      else if (b =? 0)%nat then Raise ValueError
      else
        let sh := concrete b (kshape o) in
        Ok ({| shape := sh;
               data := map (forward tf f (weights m) x)
                           (seq 0 (size_of sh)) |},
            {| predict_function := Some f |})
  | _, _, _ => Raise ValueError
  end.

(** Can [y] be the target of a prediction on [x]?  The loss compares
    them entrywise, with broadcasting. *)
Definition fits (m : Model) (x y : ndarray) : bool :=
  match inputs m, outputs m, shape x with
  | [i], [o], b :: _ =>
      compatible (kshape i) (shape x) && negb (b =? 0)%nat &&
      match broadcast_shapes (concrete b (kshape o)) (shape y) with
      | Some _ => true
      | None => false
      end
  | _, _, _ => false
  end.

(** Does a step of training or evaluation on inputs [x] and targets [y]
    go through?  The shapes must fit; under Keras 3 an empty batch gives
    no step to run and so nothing to reject, where tf.keras 2 rejects
    it. *)
Definition step_ok (m : Model) (x y : ndarray) : bool :=
  fits m x y ||
  (keras3 tf && match shape x with
                | O :: _ => true
                | _ => false
                end).

Definition History := list Logs.

(** The epochs of [model.fit]: train, evaluate on the validation
    data, log, run the callbacks, and leave the loop once a callback
    has set [stop_training]. *)
Fixpoint run_epochs (n : nat) (epoch : Z) (m : Model)
    (x y : ndarray) (batch_size : Z) (shuffle : bool)
    (validation_data : ndarray * ndarray)
    (cbs : list EarlyStopping) (hist : History)
  : History * Model * list EarlyStopping :=
  match n with
  | O => (hist, m, cbs)
  | S n' =>
      let m1 := set_trained m
                  (train_epoch tf m x y batch_size shuffle epoch) in
      let logs := {| val_loss := validation_loss m1 validation_data |} in
      let '(cbs', m2) := callbacks_on_epoch_end cbs epoch logs m1 in
      if stop_training m2 then (hist ++ [logs], m2, cbs')
      else run_epochs n' (epoch + 1) m2 x y batch_size shuffle
             validation_data cbs' (hist ++ [logs])
  end.

(** [model.fit(x, y, batch_size, epochs, validation_data, shuffle,
    callbacks, verbose)]: the history of the run and the model it
    leaves.  The arrays meet the model in the first step of the first
    epoch, which is where a misfit raises: a call with no epoch to run
    checks nothing and returns. *)
Definition fit (m : Model) (x y : ndarray) (batch_size epochs : Z)
    (validation_data : ndarray * ndarray) (shuffle : bool)
    (callbacks : option (list EarlyStopping)) (verbose : Z)
  : result (History * Model) :=
  match compiled_loss m with
  | None => Raise ValueError
  | Some _ =>
      if (0 <? epochs) && negb (step_ok m x y) then Raise ValueError
      else if (0 <? epochs) &&
              negb (step_ok m (fst validation_data) (snd validation_data))
      then Raise ValueError
      else
        let cbs := match callbacks with
                   | None => []
                   | Some l => map on_train_begin l
                   end in
        let '(hist, m1, cbs') :=
          run_epochs (Z.to_nat epochs) 0 (set_stop_training m false)
            x y batch_size shuffle validation_data cbs [] in
        Ok (hist, callbacks_on_train_end cbs' m1)
  end.

End WithBackend.

End Keras.

(** ** The class [TCNAE] *)

Module Tcnae.

Import Numpy Keras.
Open Scope Z_scope.
Open Scope result_scope.

(** The attributes of an instance.  [model] is the class attribute that
    starts as [None]. *)
Record TCNAE : Type :=
  { ts_dimension : Z;
    dilations : list Z;
    nb_filters : Z;
    kernel_size : Z;
    nb_stacks : Z;
    padding : string;
    dropout_rate : Q;
    filters_conv1d : Z;
    activation_conv1d : string;
    latent_sample_rate : Z;
    pooler : Pooler;
    learning_rate : Q;
    conv_kernel_init : string;
    loss : PyObj;
    use_early_stopping : bool;
    model : option Model }.

(** [self.model = m]. *)
Definition set_model (self : TCNAE) (m : option Model) : TCNAE :=
  {| ts_dimension := ts_dimension self;
     dilations := dilations self;
     nb_filters := nb_filters self;
     kernel_size := kernel_size self;
     nb_stacks := nb_stacks self;
     padding := padding self;
     dropout_rate := dropout_rate self;
     filters_conv1d := filters_conv1d self;
     activation_conv1d := activation_conv1d self;
     latent_sample_rate := latent_sample_rate self;
     pooler := pooler self;
     learning_rate := learning_rate self;
     conv_kernel_init := conv_kernel_init self;
     loss := loss self;
     use_early_stopping := use_early_stopping self;
     model := m |}.

(** A method: from the object to an exception, or to a returned value
    and the object as the call leaves it. *)
Definition method (A : Type) : Type := TCNAE -> result (A * TCNAE).

Section WithBackend.

Variable tf : Backend.

(** [build_model(self, verbose)].  [clear_session] and
    [model.summary] touch only the framework's name counters and the
    console. *)
Definition build_model (verbose : Z) : method unit := fun self =>
  let sampling_factor := latent_sample_rate self in
  let i := Input [None; Some 128%nat; Some 1%nat] in
  tcn_enc <- TCN (nb_filters self) (kernel_size self) (nb_stacks self)
               (dilations self) (padding self) true (dropout_rate self)
               true (conv_kernel_init self) "tcn-enc" i ;;
  enc_flat <- Conv1D (filters_conv1d self) 1 (activation_conv1d self)
                (padding self) tcn_enc ;;
  enc_pooled <- Pooling1D (pooler self) sampling_factor "valid"
                  "channels_last" enc_flat ;;
  let enc_out := Activation "linear" enc_pooled in
  dec_upsample <- UpSampling1D sampling_factor enc_out ;;
  dec_reconstructed <-
    TCN (nb_filters self) (kernel_size self) (nb_stacks self)
      (dilations self) (padding self) true (dropout_rate self)
      true (conv_kernel_init self) "tcn-dec" dec_upsample ;;
  o <- Dense (ts_dimension self) "linear" dec_reconstructed ;;
  let model := new_Model tf [i] [o] in
  let adam := {| Keras.learning_rate := learning_rate self;
                 beta_1 := 0.9; beta_2 := 0.999; epsilon := 1e-08;
                 amsgrad := true |} in
  let model := compile model (loss self) adam [loss self] in
  Ok (tt, set_model self (Some model)).

(** [__init__]: the attributes are stored, [loss] as the one-element
    tuple that the trailing comma of [self.loss = loss,] makes, and
    the model is built. *)
Definition __init__ (ts_dimension : Z) (dilations : list Z)
    (nb_filters kernel_size nb_stacks : Z) (padding : string)
    (dropout_rate : Q) (filters_conv1d : Z) (activation_conv1d : string)
    (latent_sample_rate : Z) (pooler : Pooler) (learning_rate : Q)
    (conv_kernel_init : string) (loss : string)
    (use_early_stopping : bool) (verbose : Z) : result TCNAE :=
  let self :=
    {| ts_dimension := ts_dimension;
       dilations := dilations;
       nb_filters := nb_filters;
       kernel_size := kernel_size;
       nb_stacks := nb_stacks;
       padding := padding;
       dropout_rate := dropout_rate;
       filters_conv1d := filters_conv1d;
       activation_conv1d := activation_conv1d;
       latent_sample_rate := latent_sample_rate;
       pooler := pooler;
       learning_rate := learning_rate;
       conv_kernel_init := conv_kernel_init;
       loss := PyTuple [PyStr loss];
       use_early_stopping := use_early_stopping;
       model := None |} in
  r <- build_model verbose self ;;
  Ok (snd r).

(** [fit(self, X_train, X_valid, batch_size, epochs, verbose)].  The
    two progress lines and the wall-clock measurement are console
    output only. *)
Definition fit (X_train X_valid : ndarray) (batch_size epochs verbose : Z)
  : method unit := fun self =>
  let my_callbacks :=
    if use_early_stopping self
    then Some [new_EarlyStopping "val_loss" 2 1e-4 true]
    else None in
  let keras_verbose := if 0 <? verbose then 2 else 0 in
  match model self with
  | None => Raise AttributeError
  | Some m =>
      r <- Keras.fit tf m X_train X_train batch_size epochs
             (X_valid, X_valid) true my_callbacks keras_verbose ;;
      Ok (tt, set_model self (Some (snd r)))
  end.

(** [predict_validation(self, validation_X)]. *)
Definition predict_validation (validation_X : ndarray)
  : method ndarray := fun self =>
  match model self with
  | None => Raise AttributeError
  | Some m =>
      X_rec <- Keras.predict tf m validation_X ;;
      n <- shape_at validation_X 1 ;;
      k <- shape_at X_rec 1 ;;
      X_rec <- pad X_rec (Z.of_nat n - Z.of_nat k) ;;
      d <- subtract X_rec validation_X ;;
      let E_rec := squeeze d in
      mse <- mean_last (square E_rec) ;;
      Ok (mse, self)
  end.

(** [predict(self, test_X)]. *)
Definition predict (test_X : ndarray) : method ndarray := fun self =>
  match model self with
  | None => Raise AttributeError
  | Some m =>
      X_rec <- Keras.predict tf m test_X ;;
      n <- shape_at test_X 1 ;;
      k <- shape_at X_rec 1 ;;
      X_rec <- pad X_rec (Z.of_nat n - Z.of_nat k) ;;
      d <- subtract X_rec test_X ;;
      let E_rec := squeeze d in
      mse <- mean_last (square E_rec) ;;
      Ok (mse, self)
  end.

(** A live object: the attributes of the instance and the session the
    framework keeps for [self.model]. *)
Definition Live : Type := (TCNAE * Session)%type.

(** [predict(self, test_X)] on a live object: the method with what the
    call of [self.model.predict] does to the session made explicit. *)
Definition predict_call (test_X : ndarray)
  : Live -> result (ndarray * Live) := fun live =>
  match model (fst live) with
  | None => Raise AttributeError
  | Some m =>
      r <- Keras.predict_call tf m (snd live) test_X ;;
      n <- shape_at test_X 1 ;;
      k <- shape_at (fst r) 1 ;;
      X_rec <- pad (fst r) (Z.of_nat n - Z.of_nat k) ;;
      d <- subtract X_rec test_X ;;
      let E_rec := squeeze d in
      mse <- mean_last (square E_rec) ;;
      Ok (mse, (fst live, snd r))
  end.

(** The value of [X_rec] inside [predict] once the padding is done. *)
Definition padded_reconstruction (test_X : ndarray) : method ndarray :=
  fun self =>
  match model self with
  | None => Raise AttributeError
  | Some m =>
      X_rec <- Keras.predict tf m test_X ;;
      n <- shape_at test_X 1 ;;
      k <- shape_at X_rec 1 ;;
      X_rec <- pad X_rec (Z.of_nat n - Z.of_nat k) ;;
      Ok (X_rec, self)
  end.

(** What is left of [predict] after the padding. *)
Definition error_of (X_rec test_X : ndarray) : result ndarray :=
  d <- subtract X_rec test_X ;;
  let E_rec := squeeze d in
  mean_last (square E_rec).

End WithBackend.

End Tcnae.

(** ** The properties under study *)

Module Properties.

Import Numpy Keras Tcnae.
Open Scope Z_scope.

(** The input placeholder of the object's model has the time axis of a
    window of [window] steps and one channel per series dimension. *)
Definition input_matches (window : nat) (self : TCNAE) : Prop :=
  exists m i,
    model self = Some m /\ inputs m = [i] /\
    kshape i = [None; Some window; Some (Z.to_nat (ts_dimension self))].

(** The error array holds one score per time step of each sequence. *)
Definition score_per_timestep (test_X mse : ndarray) : Prop :=
  exists b t c, shape test_X = [b; t; c] /\ shape mse = [b; t].

(** The shape of the error array for a reconstruction error of shape
    [s]: the axes of length 1 go, then the last axis is averaged. *)
Definition error_shape (s : list nat) : list nat :=
  removelast (filter (fun d => negb (d =? 1)%nat) s).

(** The last [k] entries of a history. *)
Definition window_of (k : nat) (hist : History) : History :=
  skipn (length hist - k) hist.

(** The model is left no worse on the validation data than it was at
    any of the last [k] epochs. *)
Definition never_worse_than (tf : Backend) (k : nat) (hist : History)
    (m : Model) (validation_data : ndarray * ndarray) : Prop :=
  forall l, In l (window_of k hist) ->
            (validation_loss tf m validation_data <= val_loss l)%Q.

(** The model is left at most [delta] worse on the validation data than
    it was at any epoch of the run. *)
Definition within_of_all (tf : Backend) (delta : Q) (hist : History)
    (m : Model) (validation_data : ndarray * ndarray) : Prop :=
  forall l, In l hist ->
            (validation_loss tf m validation_data <= val_loss l + delta)%Q.



(** The backend that is handed its inputs as targets, whatever targets
    it is called with. *)
Definition self_supervised (tf : Backend) : Backend :=
  {| initializer := initializer tf;
     forward := forward tf;
     train_epoch := fun m x _ => train_epoch tf m x x;
     evaluate := fun g l w x _ => evaluate tf g l w x x;
     keras3 := keras3 tf |}.

(** What the callback of [fit] knows after the epochs logged in [hist]
    of a model with layers [g] and loss [l]: nothing before the first
    epoch; afterwards [best] is the validation loss of [best_weights],
    is one of the logged losses, and is no more than 1e-4 above any of
    them. *)
Definition tracks_best (tf : Backend) (g : list Layer) (l : option PyObj)
    (validation_data : ndarray * ndarray) (es : EarlyStopping)
    (hist : History) : Prop :=
  monitor es = "val_loss"%string /\
  restore_best_weights es = true /\
  patience es = 2 /\
  min_delta es = (- Qabs 1e-4)%Q /\
  match best es, best_weights es with
  | None, None => hist = []
  | Some b, Some w =>
      b = evaluate tf g l w (fst validation_data) (snd validation_data) /\
      (exists lg, In lg hist /\ val_loss lg = b) /\
      (forall lg, In lg hist -> (b <= val_loss lg + 1e-4)%Q)
  | _, _ => False
  end.

(** The callbacks [fit] hands to the framework. *)
Definition callbacks_of (self : TCNAE) : option (list EarlyStopping) :=
  if use_early_stopping self
  then Some [new_EarlyStopping "val_loss" 2 1e-4 true]
  else None.

(** Entry [(i, t, j)] of a three-dimensional array. *)
Definition at3 (a : ndarray) (i t j : nat) : Q :=
  match shape a with
  | [_; T; C] => nth ((i * T + t) * C + j)%nat (data a) 0%Q
  | _ => 0%Q
  end.

(** [m'] is [m] but for the parameters, the optimiser's moments and the
    [stop_training] flag. *)
Definition same_settings (m m' : Model) : Prop :=
  inputs m' = inputs m /\
  outputs m' = outputs m /\
  compiled_loss m' = compiled_loss m /\
  optimizer m' = optimizer m /\
  compiled_metrics m' = compiled_metrics m.

(** What the counter of the callback of [fit] says after the epochs
    logged in [hist]: [wait] counts epochs since [best] was logged, so
    [best] is the loss of an epoch at least [wait] epochs back. *)
Definition counts_wait (es : EarlyStopping) (hist : History) : Prop :=
  monitor es = "val_loss"%string /\
  patience es = 2 /\
  match best es with
  | None => hist = [] /\ wait es = 0
  | Some b =>
      0 <= wait es < Z.of_nat (length hist) /\
      exists lg,
        In lg (firstn (length hist - Z.to_nat (wait es)) hist) /\
        val_loss lg = b
  end.

(** Square of the difference at flat position [k] of an array of shape
    [o] between two arrays broadcast to that shape. *)
Definition squared_difference (P x : ndarray) (o : list nat) (k : nat) : Q :=
  ((item P o k - item x o k) * (item P o k - item x o k))%Q.

(** Square of the difference between entry [(i, t, j)] of [P] and the
    entry of the single channel of [x] in the same sequence and step. *)
Definition squared_error (P x : ndarray) (i t j : nat) : Q :=
  ((at3 P i t j - at3 x i t 0) * (at3 P i t j - at3 x i t 0))%Q.

(** Every entry of an array is zero. *)
Definition all_zero (a : ndarray) : Prop :=
  Forall (fun q => q == 0)%Q (data a).

End Properties.

(** ** Concrete objects on which the class is run *)

Module Examples.

Import Numpy Keras Tcnae Properties.
Open Scope Z_scope.

(** A backend whose parameter vector counts the epochs trained.  The
    network adds one to each input entry, and the validation loss is 1
    after the first epoch and 0.99995 after every later one. *)
Definition counting (k3 : bool) : Backend :=
  {| initializer := fun _ => [0%Q];
     forward := fun _ _ x k => (nth k (data x) 0 + 1)%Q;
     train_epoch := fun _ _ _ _ _ epoch => ([inject_Z (epoch + 1)], []);
     evaluate := fun _ _ w _ _ =>
       match w with
       | [e] => if Qeq_bool e 1 then 1%Q else 0.99995%Q
       | _ => 2%Q
       end;
     keras3 := k3 |}.

(** The constructor with its default arguments, but for the series
    dimension, the sampling factor and the early-stopping flag. *)
Definition create (tf : Backend) (ts_dimension latent_sample_rate : Z)
    (use_early_stopping : bool) : result TCNAE :=
  __init__ tf ts_dimension [1; 2; 4; 8; 16] 20 20 1 "same" 0.00 8 "linear"
    latent_sample_rate AveragePooling1D 0.001 "glorot_normal"
    "mean_squared_error" use_early_stopping 1.

(** An array of ones. *)
Definition ones (s : list nat) : ndarray :=
  {| shape := s; data := repeat 1%Q (size_of s) |}.

(** Two windows of a univariate series. *)
Definition batch2 : ndarray := ones [2; 128; 1]%nat.

(** One window of a univariate series. *)
Definition batch1 : ndarray := ones [1; 128; 1]%nat.

(** What is left of a fallible value that is known to be there. *)
Definition get {A} (r : result A) (default : A) : A :=
  match r with
  | Ok a => a
  | Raise _ => default
  end.

(** The attributes of a default instance before its model is built. *)
Definition blank (ts_dimension latent_sample_rate : Z)
    (use_early_stopping : bool) : TCNAE :=
  {| ts_dimension := ts_dimension;
     dilations := [1; 2; 4; 8; 16];
     nb_filters := 20;
     kernel_size := 20;
     nb_stacks := 1;
     padding := "same";
     dropout_rate := 0.00;
     filters_conv1d := 8;
     activation_conv1d := "linear";
     latent_sample_rate := latent_sample_rate;
     pooler := AveragePooling1D;
     learning_rate := 0.001;
     conv_kernel_init := "glorot_normal";
     loss := PyTuple [PyStr "mean_squared_error"];
     use_early_stopping := use_early_stopping;
     model := None |}.

(** The instance [create] returns, when it returns one. *)
Definition instance (tf : Backend) (ts_dimension latent_sample_rate : Z)
    (use_early_stopping : bool) : TCNAE :=
  get (create tf ts_dimension latent_sample_rate use_early_stopping)
      (blank ts_dimension latent_sample_rate use_early_stopping).

(** The model an instance holds (an empty one if it holds none). *)
Definition the_model (tf : Backend) (self : TCNAE) : Model :=
  match model self with
  | Some m => m
  | None => new_Model tf [] []
  end.

(** The scores [predict] returns (the input itself if it raises). *)
Definition scores (tf : Backend) (x : ndarray) (self : TCNAE) : ndarray :=
  fst (get (predict tf x self) (x, self)).

(** A default instance with a sampling factor that divides the window
    and with early stopping enabled. *)
Definition stopper (k3 : bool) : TCNAE := instance (counting k3) 1 32 true.

(** The history and the model of the training run that [fit] starts
    on an instance (no history and the model as it is if the framework
    raises). *)
Definition trained (tf : Backend) (self : TCNAE) (X_train X_valid : ndarray)
    (batch_size epochs : Z) : History * Model :=
  get (Keras.fit tf (the_model tf self) X_train X_train batch_size epochs
         (X_valid, X_valid) true (callbacks_of self) 2)
      ([], the_model tf self).

(** The run of forty epochs at most that [fit] starts on [stopper]
    with one window for training and for validation. *)
Definition run40 (k3 : bool) : History * Model :=
  trained (counting k3) (stopper k3) batch1 batch1 32 40.

(** [stopper] after that call of [fit]. *)
Definition after_fit (k3 : bool) : TCNAE :=
  set_model (stopper k3) (Some (snd (run40 k3))).

(** A backend whose network multiplies its input, entry by entry, by
    its first parameter, which starts at 1, and whose training doubles
    that parameter: the network returns its input until it is
    trained. *)
Definition echo : Backend :=
  {| initializer := fun _ => [1%Q];
     forward := fun _ w x k => (nth 0 w 0 * nth k (data x) 0)%Q;
     train_epoch := fun m _ _ _ _ _ =>
       (map (fun q => 2 * q)%Q (weights m), slots m);
     evaluate := fun _ _ _ _ _ => 0%Q;
     keras3 := false |}.

(** Two windows whose entries are 1, 2, 3, ... *)
Definition ramp2 : ndarray :=
  {| shape := [2; 128; 1]%nat;
     data := map (fun k => inject_Z (Z.of_nat (S k))) (seq 0 256) |}.

(** A default instance with a sampling factor that divides the window
    and without early stopping, and that instance after a call of [fit]
    for three epochs. *)
Definition plain : TCNAE := instance (counting false) 1 32 false.

Definition after_plain : TCNAE :=
  set_model plain
    (Some (snd (trained (counting false) plain batch1 batch1 32 3))).

End Examples.

Unset Implicit Arguments.

(** ** Facts about the array operations *)

Module NumpyFacts.

Import Numpy.
Open Scope nat_scope.

Lemma size_of_app (s t : list nat) :
  size_of (s ++ t) = size_of s * size_of t.
Proof.
  induction s as [|d s IH]; simpl.
  - lia.
  - rewrite IH. lia.
Qed.

Lemma squeeze_size (s : list nat) :
  size_of (filter (fun d => negb (d =? 1)) s) = size_of s.
Proof.
  induction s as [|d s IH]; simpl; [reflexivity|].
  destruct (Nat.eqb_spec d 1) as [->|Hd]; simpl; rewrite IH; lia.
Qed.

Lemma squeeze_well_formed (a : ndarray) :
  well_formed a -> well_formed (squeeze a).
Proof.
  unfold well_formed, squeeze; simpl. intros ->. now rewrite squeeze_size.
Qed.

Lemma chunks_length (k n : nat) (l : list Q) : length (chunks k n l) = k.
Proof.
  revert l; induction k as [|k IH]; intros l; simpl; [|rewrite IH]; reflexivity.
Qed.

Lemma chunks_Forall (P : Q -> Prop) (k n : nat) (l : list Q) :
  Forall P l -> Forall (Forall P) (chunks k n l).
Proof.
  revert l; induction k as [|k IH]; intros l Hl; simpl; constructor.
  - rewrite <- (firstn_skipn n l) in Hl. now apply Forall_app in Hl.
  - apply IH. rewrite <- (firstn_skipn n l) in Hl. now apply Forall_app in Hl.
Qed.

Lemma padded_blocks_length (z k n : nat) (l : list Q) :
  length l = k * n ->
  length (flat_map (fun blk => blk ++ zeros z) (chunks k n l)) = k * (n + z).
Proof.
  revert l; induction k as [|k IH]; intros l Hl; simpl; [reflexivity|].
  rewrite !length_app, IH.
  - rewrite length_firstn. unfold zeros. rewrite repeat_length. nia.
  - rewrite length_skipn. nia.
Qed.

Lemma pad_well_formed (a p : ndarray) (k : Z) :
  well_formed a -> pad a k = Ok p -> well_formed p.
Proof.
  unfold well_formed, pad. intros Ha.
  destruct (shape a) as [|b [|m [|c [|? ?]]]]; try discriminate.
  destruct (k <? 0)%Z; [discriminate|].
  intros [= <-]; simpl in *.
  rewrite (padded_blocks_length (Z.to_nat k * c) b (m * c)); nia.
Qed.

Lemma subtract_well_formed (a b d : ndarray) :
  subtract a b = Ok d -> well_formed d.
Proof.
  unfold subtract, well_formed.
  destruct (broadcast_shapes (shape a) (shape b)); [|discriminate].
  intros [= <-]; simpl. now rewrite length_map, length_seq.
Qed.

Lemma mean_last_well_formed (a r : ndarray) :
  mean_last a = Ok r -> well_formed r.
Proof.
  unfold mean_last, well_formed.
  destruct (shape a); [discriminate|].
  intros [= <-]; simpl. now rewrite length_map, chunks_length.
Qed.

Lemma mean_last_shape (a r : ndarray) :
  mean_last a = Ok r -> shape r = removelast (shape a).
Proof.
  unfold mean_last. destruct (shape a); [discriminate|].
  now intros [= <-].
Qed.

Lemma Qsum_nonneg (l : list Q) : Forall nonneg l -> nonneg (Qsum l).
Proof.
  unfold nonneg. induction 1 as [|q l Hq _ IH]; simpl.
  - apply Qle_refl.
  - change 0%Q with (0 + 0)%Q at 1. now apply Qplus_le_compat.
Qed.

Lemma mean_of_nonneg (n : nat) (l : list Q) :
  Forall nonneg l -> nonneg (mean_of n l).
Proof.
  intros Hl. unfold mean_of, nonneg, Qdiv.
  apply Qmult_le_0_compat.
  - now apply Qsum_nonneg.
  - apply Qinv_le_0_compat.
    change 0%Q with (inject_Z 0). rewrite <- Zle_Qle. lia.
Qed.

Lemma square_nonneg (a : ndarray) : Forall nonneg (data (square a)).
Proof.
  unfold square; simpl. apply Forall_forall. intros q Hq.
  apply in_map_iff in Hq. destruct Hq as [x [<- _]].
  unfold nonneg. apply Qsqr_nonneg || (rewrite <- (Qmult_0_l 0); nra).
Qed.

Lemma mean_last_nonneg (a r : ndarray) :
  Forall nonneg (data a) -> mean_last a = Ok r -> Forall nonneg (data r).
Proof.
  unfold mean_last. intros Ha.
  destruct (shape a); [discriminate|].
  intros [= <-]; simpl.
  apply Forall_forall. intros q Hq.
  apply in_map_iff in Hq. destruct Hq as [blk [<- Hblk]].
  apply mean_of_nonneg.
  pose proof (chunks_Forall nonneg (size_of (removelast (n :: l)))
                (last (n :: l) 0) _ Ha) as Hall.
  rewrite Forall_forall in Hall. now apply Hall.
Qed.

(** The operations on small arrays. *)

Example pad_2x2 :
  pad {| shape := [1; 2; 2]; data := [1; 2; 3; 4]%Q |} 1
  = Ok {| shape := [1; 3; 2]; data := [1; 2; 3; 4; 0; 0]%Q |}.
Proof. reflexivity. Qed.

Example pad_two_blocks :
  pad {| shape := [2; 1; 2]; data := [1; 2; 3; 4]%Q |} 1
  = Ok {| shape := [2; 2; 2]; data := [1; 2; 0; 0; 3; 4; 0; 0]%Q |}.
Proof. reflexivity. Qed.

Example pad_negative :
  pad {| shape := [1; 2; 2]; data := [1; 2; 3; 4]%Q |} (-1)
  = Raise ValueError.
Proof. reflexivity. Qed.

Example subtract_broadcast :
  option_map (fun d => (shape d, map Qred (data d)))
    (match subtract {| shape := [1; 2; 2]; data := [1; 2; 3; 4]%Q |}
                    {| shape := [1; 2; 1]; data := [10; 20]%Q |} with
     | Ok d => Some d
     | Raise _ => None
     end)
  = Some ([1; 2; 2], [-9; -8; -17; -16]%Q).
Proof. reflexivity. Qed.

Example subtract_mismatch :
  subtract {| shape := [1; 3; 1]; data := [1; 2; 3]%Q |}
           {| shape := [1; 2; 1]; data := [10; 20]%Q |}
  = Raise ValueError.
Proof. reflexivity. Qed.

Example squeeze_channel :
  squeeze {| shape := [2; 3; 1]; data := [1; 2; 3; 4; 5; 6]%Q |}
  = {| shape := [2; 3]; data := [1; 2; 3; 4; 5; 6]%Q |}.
Proof. reflexivity. Qed.

Example mean_last_rows :
  option_map (fun d => (shape d, map Qred (data d)))
    (match mean_last {| shape := [2; 2]; data := [1; 3; 5; 7]%Q |} with
     | Ok d => Some d
     | Raise _ => None
     end)
  = Some ([2], [2; 6]%Q).
Proof. reflexivity. Qed.

Example mean_last_scalar :
  mean_last {| shape := []; data := [1]%Q |} = Raise AxisError.
Proof. reflexivity. Qed.

End NumpyFacts.

(** ** Facts about the layers and the built model *)

Module KerasFacts.

Import Numpy Keras.
Open Scope Z_scope.

Arguments pooled_length : simpl never.
Arguments upsampled_length : simpl never.

Lemma TCN_inv nf ks ns dil pad skip dr ki nm x y :
  TCN nf ks ns dil pad skip dr true ki nm x = Ok y ->
  exists b t c,
    kshape x = [b; t; c] /\
    kshape y = [b; t; Some (Z.to_nat nf)] /\
    accepted_by_tcn pad = true.
Proof.
  unfold TCN.
  destruct (accepted_by_tcn pad); simpl; [|discriminate].
  destruct (positive nf && positive ks); simpl; [|discriminate].
  destruct (kshape x) as [|b [|t [|c [|? ?]]]]; try discriminate.
  intros [= <-]. exists b, t, c. auto.
Qed.

Lemma Conv1D_inv f k act pad x y b t c :
  Conv1D f k act pad x = Ok y ->
  accepted_by_tcn pad = true ->
  kshape x = [b; t; c] ->
  kshape y = [b; t; Some (Z.to_nat f)].
Proof.
  unfold Conv1D, accepted_by_tcn. intros H Hpad Hx.
  rewrite Hx in H. rewrite orb_comm in Hpad.
  destruct (negb (positive f && positive k)); [discriminate|].
  destruct t as [n|]; simpl in H.
  - rewrite Hpad in H. simpl in H. now inversion H.
  - now inversion H.
Qed.

Lemma Pooling1D_inv p s df x y b n c :
  Pooling1D p s "valid" df x = Ok y ->
  kshape x = [b; Some n; c] ->
  0 < s <= Z.of_nat n /\
  kshape y = [b; Some (pooled_length n s); c].
Proof.
  unfold Pooling1D, positive. intros H Hx. rewrite Hx in H.
  destruct (Z.ltb_spec 0 s) as [Hs|]; simpl in H; [|discriminate].
  destruct (Z.ltb_spec (Z.of_nat n) s) as [|Hn]; simpl in H; [discriminate|].
  inversion H. split; [lia|reflexivity].
Qed.

Lemma UpSampling1D_inv s x y b n c :
  UpSampling1D s x = Ok y ->
  kshape x = [b; Some n; c] ->
  kshape y = [b; Some (upsampled_length n s); c].
Proof.
  unfold UpSampling1D. intros H Hx. rewrite Hx in H.
  destruct (negb (positive s)); [discriminate|].
  simpl in H. now inversion H.
Qed.

Lemma Dense_inv u act x y b t c :
  Dense u act x = Ok y ->
  kshape x = [b; t; c] ->
  0 < u /\ kshape y = [b; t; Some (Z.to_nat u)].
Proof.
  unfold Dense, positive. intros H Hx. rewrite Hx in H.
  destruct (Z.ltb_spec 0 u) as [Hu|]; simpl in H; [|discriminate].
  inversion H. split; [assumption|reflexivity].
Qed.

(** Pooling by [s] and upsampling by [s] never lengthens the axis. *)
Lemma pooled_then_upsampled_le (n : nat) (s : Z) :
  0 < s <= Z.of_nat n ->
  (upsampled_length (pooled_length n s) s <= n)%nat.
Proof.
  intros Hs. unfold upsampled_length, pooled_length.
  assert (H0 : 0 <= (Z.of_nat n - s) / s) by (apply Z.div_pos; lia).
  assert (H1 : s * ((Z.of_nat n - s) / s) <= Z.of_nat n - s)
    by (apply Z.mul_div_le; lia).
  rewrite Z2Nat.id by lia. nia.
Qed.

Lemma compatible_batch (b t c : nat) :
  compatible [None; Some t; Some c] [b; t; c] = true.
Proof. simpl. now rewrite !Nat.eqb_refl. Qed.

(** The default sampling factor 42 turns 128 steps into 3 and back into
    126; a factor that divides 128 gives 128 back. *)
Example default_bottleneck :
  pooled_length 128 42 = 3%nat /\
  upsampled_length (pooled_length 128 42) 42 = 126%nat /\
  upsampled_length (pooled_length 128 32) 32 = 128%nat.
Proof. repeat split. Qed.

End KerasFacts.

(** ** The constructor and the model builder *)

Module BuilderFacts.

Import Numpy Keras Tcnae Properties KerasFacts.
Open Scope Z_scope.

Ltac step H E :=
  match type of H with
  | rbind ?r _ = _ => destruct r eqn:E; cbn [rbind] in H; [|discriminate]
  end.

Section WithBackend.

Variable tf : Backend.

(** What a successful [build_model] leaves in [self.model]. *)
Lemma build_model_inv verbose self u self' :
  build_model tf verbose self = Ok (u, self') ->
  exists o T' m,
    self' = set_model self (Some m) /\
    inputs m = [Input [None; Some 128%nat; Some 1%nat]] /\
    outputs m = [o] /\
    kshape o = [None; Some T'; Some (Z.to_nat (ts_dimension self))] /\
    (T' <= 128)%nat /\
    0 < ts_dimension self /\
    compiled_loss m = Some (loss self) /\
    compiled_metrics m = [loss self].
Proof.
  unfold build_model. intros H.
  step H E1. step H E2. step H E3. step H E4. step H E5. step H E6.
  injection H as _ <-.
  apply TCN_inv in E1. destruct E1 as (b1 & t1 & c1 & Hi & H1 & Hpad).
  unfold Input in Hi; cbn [kshape] in Hi. injection Hi as <- <- <-.
  pose proof (Conv1D_inv _ _ _ _ _ _ _ _ _ E2 Hpad H1) as H2.
  destruct (Pooling1D_inv _ _ _ _ _ _ _ _ E3 H2) as [Hs H3].
  assert (H3' : kshape (Activation "linear" a1) = kshape a1) by reflexivity.
  rewrite H3 in H3'.
  pose proof (UpSampling1D_inv _ _ _ _ _ _ E4 H3') as H4.
  apply TCN_inv in E5. destruct E5 as (b5 & t5 & c5 & H4' & H5 & _).
  rewrite H4 in H4'. injection H4' as <- <- <-.
  destruct (Dense_inv _ _ _ _ _ _ _ E6 H5) as [Hd H6].
  eexists a4,
    (upsampled_length (pooled_length 128 (latent_sample_rate self))
       (latent_sample_rate self)), _.
  split; [reflexivity|].
  cbn [inputs outputs compiled_loss compiled_metrics compile new_Model].
  repeat split; try reflexivity; try assumption.
  now apply pooled_then_upsampled_le.
Qed.

(** What a successful constructor returns: the stored attributes and
    a built model. *)
Lemma init_inv ts dil nf ks ns pad dr fc act lsr pool lr ini lo es v self :
  __init__ tf ts dil nf ks ns pad dr fc act lsr pool lr ini lo es v
    = Ok self ->
  ts_dimension self = ts /\
  loss self = PyTuple [PyStr lo] /\
  use_early_stopping self = es /\
  exists o T' m,
    model self = Some m /\
    inputs m = [Input [None; Some 128%nat; Some 1%nat]] /\
    outputs m = [o] /\
    kshape o = [None; Some T'; Some (Z.to_nat ts)] /\
    (T' <= 128)%nat /\
    0 < ts /\
    compiled_loss m = Some (loss self) /\
    compiled_metrics m = [loss self].
Proof.
  unfold __init__. intros H.
  match type of H with
  | rbind ?r _ = _ => destruct r as [[u self']|] eqn:E; [|discriminate]
  end.
  cbn [rbind snd] in H. injection H as <-.
  apply build_model_inv in E.
  destruct E as (o & T' & m & -> & Hi & Ho & Hk & HT & Hts & Hl & Hm).
  cbn [set_model ts_dimension loss use_early_stopping model] in *.
  repeat split.
  exists o, T', m. repeat split; assumption.
Qed.

End WithBackend.

End BuilderFacts.

(** ** Claims about the constructor and the model builder *)

Module BuilderClaims.

Import Numpy Keras Tcnae Properties Examples BuilderFacts.
Open Scope Z_scope.

(** C1, as amended.  Whenever [build_model] succeeds, the model it
    stores has a single three-dimensional input placeholder with an
    unknown batch dimension and a time axis of 128 steps: the length is
    a constant of [build_model], not a configured window length. *)
Theorem build_model_input_timesteps tf verbose self u self' :
  build_model tf verbose self = Ok (u, self') ->
  exists m i channels,
    model self' = Some m /\ inputs m = [i] /\
    kshape i = [None; Some 128%nat; channels].
Proof.
  intros H. apply build_model_inv in H.
  destruct H as (o & T' & m & -> & Hi & _).
  exists m, (Input [None; Some 128%nat; Some 1%nat]), (Some 1%nat).
  repeat split; assumption || reflexivity.
Qed.

Lemma build_model_input_timesteps_witness :
  build_model (counting false) 1 (blank 1 42 false)
    = Ok (tt, instance (counting false) 1 42 false) /\
  exists m i channels,
    model (instance (counting false) 1 42 false) = Some m /\
    inputs m = [i] /\ kshape i = [None; Some 128%nat; channels].
Proof.
  split.
  - vm_compute. reflexivity.
  - apply (build_model_input_timesteps (counting false) 1
             (blank 1 42 false) tt).
    vm_compute. reflexivity.
Defined.

(** C1, as stated, fails.  An instance built for a three-dimensional
    series has an input placeholder of one channel, and no instance has
    a placeholder for windows of 64 steps. *)
Lemma input_matches_counterexample :
  create (counting false) 3 42 false
    = Ok (instance (counting false) 3 42 false) /\
  ~ input_matches 128 (instance (counting false) 3 42 false) /\
  create (counting false) 1 42 false
    = Ok (instance (counting false) 1 42 false) /\
  ~ input_matches 64 (instance (counting false) 1 42 false).
Proof.
  split; [|split; [|split]].
  - vm_compute. reflexivity.
  - intros (m & i & Hm & Hi & Hk).
    vm_compute in Hm. injection Hm as <-.
    cbn [inputs] in Hi. injection Hi as <-.
    vm_compute in Hk. discriminate.
  - vm_compute. reflexivity.
  - intros (m & i & Hm & Hi & Hk).
    vm_compute in Hm. injection Hm as <-.
    cbn [inputs] in Hi. injection Hi as <-.
    vm_compute in Hk. discriminate.
Qed.

(** C8.  The constructor stores the loss argument wrapped in a
    one-element tuple, which is not the loss string, and the model is
    compiled with that tuple as its loss and as the single entry of its
    metrics. *)
Theorem init_stores_loss_tuple
    tf ts dil nf ks ns pad dr fc act lsr pool lr ini lo es v self :
  __init__ tf ts dil nf ks ns pad dr fc act lsr pool lr ini lo es v
    = Ok self ->
  loss self = PyTuple [PyStr lo] /\
  loss self <> PyStr lo /\
  exists m,
    model self = Some m /\
    compiled_loss m = Some (PyTuple [PyStr lo]) /\
    compiled_metrics m = [PyTuple [PyStr lo]].
Proof.
  intros H. apply init_inv in H.
  destruct H as (_ & Hl & _ & o & T' & m & Hm & _ & _ & _ & _ & _ & Hcl & Hcm).
  split; [exact Hl|]. split.
  - rewrite Hl. discriminate.
  - exists m. rewrite <- Hl. auto.
Qed.

Lemma init_stores_loss_tuple_witness :
  create (counting false) 1 42 false
    = Ok (instance (counting false) 1 42 false) /\
  loss (instance (counting false) 1 42 false)
    = PyTuple [PyStr "mean_squared_error"] /\
  loss (instance (counting false) 1 42 false)
    <> PyStr "mean_squared_error" /\
  exists m,
    model (instance (counting false) 1 42 false) = Some m /\
    compiled_loss m = Some (PyTuple [PyStr "mean_squared_error"]) /\
    compiled_metrics m = [PyTuple [PyStr "mean_squared_error"]].
Proof.
  split.
  - vm_compute. reflexivity.
  - apply (init_stores_loss_tuple (counting false) 1 [1; 2; 4; 8; 16] 20 20
             1 "same" 0.00 8 "linear" 42 AveragePooling1D 0.001
             "glorot_normal" "mean_squared_error" false 1).
    vm_compute. reflexivity.
Defined.

(** C9.  An instance the constructor returns holds a model, never
    [None], and that model is compiled. *)
Theorem init_model_not_None
    tf ts dil nf ks ns pad dr fc act lsr pool lr ini lo es v self :
  __init__ tf ts dil nf ks ns pad dr fc act lsr pool lr ini lo es v
    = Ok self ->
  model self <> None /\
  exists m, model self = Some m /\ compiled_loss m <> None /\
            optimizer m <> None.
Proof.
  unfold __init__. intros H.
  destruct (build_model tf v _) as [[u self']|] eqn:E; [|discriminate].
  cbn [rbind snd] in H. injection H as <-.
  unfold build_model in E.
  step E E1. step E E2. step E E3. step E E4. step E E5. step E E6.
  injection E as _ <-. cbn [set_model model].
  split; [discriminate|].
  eexists. split; [reflexivity|]. split; discriminate.
Qed.

Lemma init_model_not_None_witness :
  create (counting false) 1 42 false
    = Ok (instance (counting false) 1 42 false) /\
  model (instance (counting false) 1 42 false) <> None /\
  exists m, model (instance (counting false) 1 42 false) = Some m /\
            compiled_loss m <> None /\ optimizer m <> None.
Proof.
  split.
  - vm_compute. reflexivity.
  - apply (init_model_not_None (counting false) 1 [1; 2; 4; 8; 16] 20 20
             1 "same" 0.00 8 "linear" 42 AveragePooling1D 0.001
             "glorot_normal" "mean_squared_error" false 1).
    vm_compute. reflexivity.
Defined.

End BuilderClaims.

(** ** The predictor *)

Module PredictorFacts.

Import Numpy Keras Tcnae Properties NumpyFacts.
Open Scope Z_scope.

Lemma pad_shape (a : ndarray) (b k c n : nat) :
  shape a = [b; k; c] -> (k <= n)%nat ->
  exists p, pad a (Z.of_nat n - Z.of_nat k) = Ok p /\ shape p = [b; n; c].
Proof.
  intros Ha Hk. unfold pad. rewrite Ha.
  destruct (Z.ltb_spec (Z.of_nat n - Z.of_nat k) 0) as [Hlt|_]; [lia|].
  eexists. split; [reflexivity|]. cbn [shape].
  do 3 f_equal. lia.
Qed.

Lemma broadcast_channel (b t d : nat) :
  broadcast_shapes [b; t; d] [b; t; 1%nat] = Some [b; t; d].
Proof.
  unfold broadcast_shapes. cbn [rev app broadcast_rev].
  rewrite !Nat.eqb_refl. cbn [Nat.eqb].
  destruct (d =? 1)%nat; reflexivity.
Qed.

Lemma squeezed_nonempty (b t d : nat) :
  t <> 1%nat -> filter (fun d => negb (d =? 1)%nat) [b; t; d] <> [].
Proof.
  intros Ht. cbn [filter].
  destruct (Nat.eqb_spec t 1) as [|_]; [contradiction|].
  destruct (b =? 1)%nat; cbn [negb]; discriminate.
Qed.

(** The error array of a padded reconstruction of shape [(b, t, d)]
    against an input of shape [(b, t, 1)]. *)
Lemma error_of_shape (X_rec x : ndarray) (b t d : nat) :
  shape X_rec = [b; t; d] -> shape x = [b; t; 1%nat] -> t <> 1%nat ->
  exists mse,
    error_of X_rec x = Ok mse /\
    shape mse = error_shape [b; t; d] /\
    well_formed mse.
Proof.
  intros HX Hx Ht. unfold error_of, subtract.
  rewrite HX, Hx, broadcast_channel. cbn [rbind].
  destruct (mean_last _) as [mse|e] eqn:E.
  - exists mse. split; [reflexivity|]. split.
    + apply mean_last_shape in E. exact E.
    + now apply mean_last_well_formed in E.
  - exfalso. unfold mean_last in E. cbn [square squeeze shape] in E.
    pose proof (squeezed_nonempty b t d Ht) as Hne.
    destruct (filter _ [b; t; d]); [contradiction|discriminate].
Qed.

Lemma error_of_nonneg (X_rec x mse : ndarray) :
  error_of X_rec x = Ok mse -> Forall nonneg (data mse).
Proof.
  unfold error_of. intros H.
  destruct (subtract X_rec x) as [d|]; [|discriminate]. cbn [rbind] in H.
  eapply mean_last_nonneg; [|exact H]. apply square_nonneg.
Qed.

Section WithBackend.

Variable tf : Backend.

(** [predict] is the padded reconstruction followed by the error. *)
Lemma predict_factors (test_X : ndarray) (self : TCNAE) :
  predict tf test_X self =
  rbind (padded_reconstruction tf test_X self)
        (fun r => rbind (error_of (fst r) test_X)
                        (fun mse => Ok (mse, snd r))).
Proof.
  unfold predict, padded_reconstruction, error_of.
  destruct (model self) as [m|]; [|reflexivity].
  destruct (Keras.predict tf m test_X) as [X|]; [|reflexivity].
  cbn [rbind].
  destruct (shape_at test_X 1) as [n|]; [|reflexivity]. cbn [rbind].
  destruct (shape_at X 1) as [k|]; [|reflexivity]. cbn [rbind].
  destruct (pad X _) as [P|]; [|reflexivity]. cbn [rbind fst snd].
  destruct (subtract P test_X) as [d|]; reflexivity.
Qed.

(** A model built by [build_model] reconstructs any non-empty batch
    of windows of 128 steps and one channel. *)
Lemma keras_predict_built (m : Model) (o : KerasTensor) (T' d b : nat)
    (x : ndarray) :
  inputs m = [Input [None; Some 128%nat; Some 1%nat]] ->
  outputs m = [o] ->
  kshape o = [None; Some T'; Some d] ->
  shape x = [b; 128%nat; 1%nat] -> (1 <= b)%nat ->
  exists X_rec,
    Keras.predict tf m x = Ok X_rec /\ shape X_rec = [b; T'; d].
Proof.
  intros Hi Ho Hk Hx Hb. unfold Keras.predict.
  rewrite Hi, Ho, Hx, Hk. unfold Input. cbn [kshape compatible].
  rewrite !Nat.eqb_refl. cbn [andb negb].
  destruct (Nat.eqb_spec b 0) as [|_]; [lia|].
  eexists. split; reflexivity.
Qed.

End WithBackend.

Lemma keras_predict_well_formed tf (m : Model) (x X_rec : ndarray) :
  Keras.predict tf m x = Ok X_rec -> well_formed X_rec.
Proof.
  unfold Keras.predict, well_formed.
  destruct (inputs m) as [|i [|? ?]]; try discriminate.
  destruct (outputs m) as [|o [|? ?]]; try discriminate.
  destruct (shape x) as [|b rest]; try discriminate.
  destruct (negb _); [discriminate|].
  destruct (b =? 0)%nat; [discriminate|].
  intros [= <-]. cbn [data shape]. now rewrite length_map, length_seq.
Qed.

(** Entry [i * (n + z) + r] of blocks of length [n] each followed by
    [z] zeros. *)
Lemma nth_padded_blocks (z n : nat) :
  forall (b : nat) (l : list Q) (i r : nat),
  length l = (b * n)%nat -> (i < b)%nat -> (r < n + z)%nat ->
  nth (i * (n + z) + r)
      (flat_map (fun blk => blk ++ zeros z) (chunks b n l)) 0%Q
  = if (r <? n)%nat then nth (i * n + r) l 0%Q else 0%Q.
Proof.
  induction b as [|b IH]; intros l i r Hl Hi Hr; [lia|].
  cbn [chunks flat_map].
  assert (Hfirst : length (firstn n l ++ zeros z) = (n + z)%nat).
  { rewrite length_app, length_firstn. unfold zeros.
    rewrite repeat_length. nia. }
  destruct i as [|i].
  - cbn [Nat.mul Nat.add]. rewrite app_nth1 by lia.
    destruct (Nat.ltb_spec r n) as [Hlt|Hge].
    + rewrite app_nth1 by (rewrite length_firstn; nia).
      rewrite nth_firstn.
      destruct (Nat.ltb_spec r n); [reflexivity|lia].
    + rewrite app_nth2 by (rewrite length_firstn; nia).
      unfold zeros. apply nth_repeat.
  - rewrite app_nth2 by nia. rewrite Hfirst.
    replace (S i * (n + z) + r - (n + z))%nat with (i * (n + z) + r)%nat
      by nia.
    rewrite IH; [|rewrite length_skipn; nia|lia|lia].
    destruct (r <? n)%nat; [|reflexivity].
    rewrite nth_skipn. f_equal. nia.
Qed.

(** The padded reconstruction, entry by entry. *)
Lemma padded_entries
    tf (self : TCNAE) (m : Model) (test_X X_rec : ndarray) (b k c n : nat) :
  model self = Some m ->
  Keras.predict tf m test_X = Ok X_rec ->
  shape X_rec = [b; k; c] ->
  shape_at test_X 1 = Ok n ->
  (k <= n)%nat ->
  exists P,
    padded_reconstruction tf test_X self = Ok (P, self) /\
    well_formed P /\
    forall i t j, (i < b)%nat -> (t < n)%nat -> (j < c)%nat ->
      at3 P i t j = if (t <? k)%nat then at3 X_rec i t j else 0%Q.
Proof.
  intros Hm HX HXs Hn Hk.
  pose proof (keras_predict_well_formed tf m test_X X_rec HX) as Hwf.
  destruct (pad_shape X_rec b k c n HXs Hk) as (P & HP & HPs).
  exists P. split; [|split].
  - unfold padded_reconstruction. rewrite Hm, HX. cbn [rbind].
    rewrite Hn. cbn [rbind]. unfold shape_at at 1. rewrite HXs.
    cbn [nth_error rbind]. rewrite HP. reflexivity.
  - exact (pad_well_formed X_rec P _ Hwf HP).
  - intros i t j Hi Ht Hj. unfold at3. rewrite HPs, HXs.
    unfold pad in HP. rewrite HXs in HP.
    destruct (Z.of_nat n - Z.of_nat k <? 0); [discriminate|].
    injection HP as <-. cbn [data].
    unfold well_formed in Hwf. rewrite HXs in Hwf. cbn [size_of fold_right] in Hwf.
    set (kn := Z.to_nat (Z.of_nat n - Z.of_nat k)).
    assert (Hkn : (k + kn = n)%nat) by (unfold kn; lia).
    replace ((i * n + t) * c + j)%nat
      with (i * (k * c + kn * c) + (t * c + j))%nat by nia.
    rewrite nth_padded_blocks; [|nia|lia|nia].
    destruct (Nat.ltb_spec t k) as [Hlt|Hge];
      destruct (Nat.ltb_spec (t * c + j) (k * c)) as [Hlt'|Hge'];
      try nia; [|reflexivity].
    f_equal. nia.
Qed.





(** The default instance on two windows of ones, with a network that
    adds one to each entry: the reconstruction is off by one on its 126
    steps and so is the zero padding of the last two, hence a score of 1
    for each window. *)
Example scores_of_batch2 :
  map Qred (data (Examples.scores (Examples.counting false) Examples.batch2
                    (Examples.instance (Examples.counting false) 1 42 false)))
  = [1; 1]%Q.
Proof. vm_compute. reflexivity. Qed.

End PredictorFacts.

(** ** Claims about the predictor *)

Module PredictorClaims.

Import Numpy Keras Tcnae Properties Examples.
Import NumpyFacts BuilderFacts PredictorFacts.
Open Scope Z_scope.

(** C2, as amended.  On a non-empty batch of shape (batch, 128, 1) an
    instance returned by the constructor answers [predict] and
    [predict_validation] with the same well-formed array and is left
    as it was.  The shape of the array is (batch, 128, ts_dimension)
    with every axis of length 1 removed and the last remaining axis
    averaged away: (batch, 128) for batch >= 2 and ts_dimension >= 2,
    but (batch,), one score per sequence averaged over the time steps,
    for batch >= 2 and ts_dimension = 1. *)
Theorem predict_error_shape
    tf ts dil nf ks ns pad dr fc act lsr pool lr ini lo es v self
    (b : nat) (x : ndarray) :
  __init__ tf ts dil nf ks ns pad dr fc act lsr pool lr ini lo es v
    = Ok self ->
  shape x = [b; 128%nat; 1%nat] ->
  (1 <= b)%nat ->
  exists mse,
    predict tf x self = Ok (mse, self) /\
    predict_validation tf x self = Ok (mse, self) /\
    shape mse = error_shape [b; 128%nat; Z.to_nat ts] /\
    well_formed mse /\
    ((2 <= b)%nat -> 2 <= ts -> shape mse = [b; 128%nat]) /\
    ((2 <= b)%nat -> ts = 1 -> shape mse = [b]).
Proof.
  intros Hinit Hx Hb. apply init_inv in Hinit.
  destruct Hinit as (_ & _ & _ & o & T' & m & Hm & Hi & Ho & Hk & HT & Hts & _).
  destruct (keras_predict_built tf m o T' (Z.to_nat ts) b x Hi Ho Hk Hx Hb)
    as (X_rec & HX & HXs).
  destruct (pad_shape X_rec b T' (Z.to_nat ts) 128 HXs HT) as (P & HP & HPs).
  assert (Hne : 128%nat <> 1%nat) by discriminate.
  destruct (error_of_shape P x b 128 (Z.to_nat ts) HPs Hx Hne)
    as (mse & Hmse & Hshape & Hwf).
  assert (Hpred : predict tf x self = Ok (mse, self)).
  { rewrite predict_factors. unfold padded_reconstruction, shape_at.
    rewrite Hm, HX. cbn [rbind]. rewrite Hx, HXs. cbn [rbind nth_error].
    rewrite HP. cbn [rbind fst snd]. rewrite Hmse. reflexivity. }
  exists mse. split; [exact Hpred|]. split; [exact Hpred|].
  split; [exact Hshape|]. split; [exact Hwf|].
  rewrite Hshape. unfold error_shape. cbn [filter]. split.
  - intros Hb2 Hts2.
    destruct (Nat.eqb_spec b 1) as [|_]; [lia|].
    destruct (Nat.eqb_spec (Z.to_nat ts) 1) as [|_]; [lia|].
    reflexivity.
  - intros Hb2 ->.
    destruct (Nat.eqb_spec b 1) as [|_]; [lia|]. reflexivity.
Qed.

Lemma predict_error_shape_witness :
  create (counting false) 3 42 false
    = Ok (instance (counting false) 3 42 false) /\
  shape batch2 = [2; 128; 1]%nat /\
  (1 <= 2)%nat /\
  exists mse,
    predict (counting false) batch2 (instance (counting false) 3 42 false)
      = Ok (mse, instance (counting false) 3 42 false) /\
    predict_validation (counting false) batch2
        (instance (counting false) 3 42 false)
      = Ok (mse, instance (counting false) 3 42 false) /\
    shape mse = error_shape [2; 128; Z.to_nat 3]%nat /\
    well_formed mse /\
    ((2 <= 2)%nat -> 2 <= 3 -> shape mse = [2; 128]%nat) /\
    ((2 <= 2)%nat -> 3 = 1 -> shape mse = [2]%nat).
Proof.
  split; [vm_compute; reflexivity|].
  split; [reflexivity|].
  split; [lia|].
  apply (predict_error_shape (counting false) 3 [1; 2; 4; 8; 16] 20 20
           1 "same" 0.00 8 "linear" 42 AveragePooling1D 0.001
           "glorot_normal" "mean_squared_error" false 1
           (instance (counting false) 3 42 false) 2 batch2).
  - vm_compute. reflexivity.
  - reflexivity.
  - lia.
Defined.

(** C2, as stated, fails.  The default instance scores a batch of two
    univariate windows of 128 steps with an array of shape (2,), not
    (2, 128): the squeeze removes the channel axis and the mean runs
    over the time steps. *)
Lemma predict_shape_counterexample :
  create (counting false) 1 42 false
    = Ok (instance (counting false) 1 42 false) /\
  shape batch2 = [2; 128; 1]%nat /\
  predict (counting false) batch2 (instance (counting false) 1 42 false)
    = Ok (scores (counting false) batch2
            (instance (counting false) 1 42 false),
          instance (counting false) 1 42 false) /\
  shape (scores (counting false) batch2
           (instance (counting false) 1 42 false)) = [2%nat] /\
  ~ score_per_timestep batch2
      (scores (counting false) batch2
         (instance (counting false) 1 42 false)).
Proof.
  split; [vm_compute; reflexivity|].
  split; [reflexivity|].
  split; [vm_compute; reflexivity|].
  split; [vm_compute; reflexivity|].
  intros (b & t & c & _ & Hm). vm_compute in Hm. discriminate.
Qed.

(** C3.  Inside [predict] the reconstruction of a batch, if it is a
    three-dimensional array with no more time steps than the batch, is
    padded to a well-formed array with exactly the time steps of the
    batch (and the batch size and channels of the reconstruction) that
    holds the reconstruction on its own time steps and zeros on the
    steps after them; the scores are the error of that padded array. *)
Theorem padded_reconstruction_timesteps
    tf (self : TCNAE) (m : Model) (test_X X_rec : ndarray) (b k c n : nat) :
  model self = Some m ->
  Keras.predict tf m test_X = Ok X_rec ->
  shape X_rec = [b; k; c] ->
  shape_at test_X 1 = Ok n ->
  (k <= n)%nat ->
  exists P,
    padded_reconstruction tf test_X self = Ok (P, self) /\
    shape_at P 1 = Ok n /\
    shape P = [b; n; c] /\
    well_formed P /\
    (forall i t j, (i < b)%nat -> (t < n)%nat -> (j < c)%nat ->
       at3 P i t j = if (t <? k)%nat then at3 X_rec i t j else 0%Q) /\
    predict tf test_X self
      = rbind (error_of P test_X) (fun mse => Ok (mse, self)).
Proof.
  intros Hm HX HXs Hn Hk.
  destruct (padded_entries tf self m test_X X_rec b k c n Hm HX HXs Hn Hk)
    as (P & Hpad & Hwf & Hent).
  destruct (pad_shape X_rec b k c n HXs Hk) as (P' & HP' & HPs).
  assert (HP : P' = P).
  { unfold padded_reconstruction in Hpad. rewrite Hm, HX in Hpad.
    cbn [rbind] in Hpad. rewrite Hn in Hpad. cbn [rbind] in Hpad.
    unfold shape_at in Hpad at 1. rewrite HXs in Hpad.
    cbn [nth_error rbind] in Hpad. rewrite HP' in Hpad.
    cbn [rbind] in Hpad. now injection Hpad. }
  subst P'.
  exists P. split; [exact Hpad|]. split.
  - unfold shape_at. rewrite HPs. reflexivity.
  - split; [exact HPs|]. split; [exact Hwf|]. split; [exact Hent|].
    rewrite predict_factors, Hpad. reflexivity.
Qed.

Lemma padded_reconstruction_timesteps_witness :
  model (instance (counting false) 1 42 false)
    = Some (the_model (counting false) (instance (counting false) 1 42 false)) /\
  Keras.predict (counting false)
      (the_model (counting false) (instance (counting false) 1 42 false))
      batch2
    = Ok (get (Keras.predict (counting false)
                 (the_model (counting false)
                    (instance (counting false) 1 42 false)) batch2)
              batch2) /\
  shape (get (Keras.predict (counting false)
                (the_model (counting false)
                   (instance (counting false) 1 42 false)) batch2)
             batch2) = [2; 126; 1]%nat /\
  shape_at batch2 1 = Ok 128%nat /\
  (126 <= 128)%nat /\
  exists P,
    padded_reconstruction (counting false) batch2
        (instance (counting false) 1 42 false)
      = Ok (P, instance (counting false) 1 42 false) /\
    shape_at P 1 = Ok 128%nat /\
    shape P = [2; 128; 1]%nat /\
    well_formed P /\
    (forall i t j, (i < 2)%nat -> (t < 128)%nat -> (j < 1)%nat ->
       at3 P i t j
       = if (t <? 126)%nat
         then at3 (get (Keras.predict (counting false)
                          (the_model (counting false)
                             (instance (counting false) 1 42 false)) batch2)
                       batch2) i t j
         else 0%Q) /\
    predict (counting false) batch2 (instance (counting false) 1 42 false)
      = rbind (error_of P batch2)
          (fun mse => Ok (mse, instance (counting false) 1 42 false)).
Proof.
  split; [vm_compute; reflexivity|].
  split; [vm_compute; reflexivity|].
  split; [vm_compute; reflexivity|].
  split; [reflexivity|].
  split; [lia|].
  apply (padded_reconstruction_timesteps (counting false)
           (instance (counting false) 1 42 false)
           (the_model (counting false) (instance (counting false) 1 42 false))
           batch2
           (get (Keras.predict (counting false)
                   (the_model (counting false)
                      (instance (counting false) 1 42 false)) batch2)
                batch2)
           2 126 1 128).
  - vm_compute. reflexivity.
  - vm_compute. reflexivity.
  - vm_compute. reflexivity.
  - reflexivity.
  - lia.
Defined.

(** C4.  Every entry of the array returned by [predict] or by
    [predict_validation] is non-negative. *)
Theorem predict_nonneg tf (x mse : ndarray) (self self' : TCNAE) :
  predict tf x self = Ok (mse, self') \/
  predict_validation tf x self = Ok (mse, self') ->
  Forall nonneg (data mse).
Proof.
  intros H.
  assert (Hp : predict tf x self = Ok (mse, self')) by (destruct H; exact H).
  clear H. rewrite predict_factors in Hp.
  destruct (padded_reconstruction tf x self) as [[P s]|]; [|discriminate].
  cbn [rbind fst snd] in Hp.
  destruct (error_of P x) as [e|] eqn:He; [|discriminate].
  cbn [rbind] in Hp. injection Hp as <- _.
  now apply error_of_nonneg in He.
Qed.

Lemma predict_nonneg_witness :
  (predict (counting false) batch2 (instance (counting false) 1 42 false)
     = Ok (scores (counting false) batch2
             (instance (counting false) 1 42 false),
           instance (counting false) 1 42 false) \/
   predict_validation (counting false) batch2
       (instance (counting false) 1 42 false)
     = Ok (scores (counting false) batch2
             (instance (counting false) 1 42 false),
           instance (counting false) 1 42 false)) /\
  Forall nonneg
    (data (scores (counting false) batch2
             (instance (counting false) 1 42 false))).
Proof.
  split.
  - left. vm_compute. reflexivity.
  - apply (predict_nonneg (counting false) batch2
             (scores (counting false) batch2
                (instance (counting false) 1 42 false))
             (instance (counting false) 1 42 false)
             (instance (counting false) 1 42 false)).
    left. vm_compute. reflexivity.
Defined.

(** C5.  [predict_validation] and [predict] are the same function of
    the object and the array. *)
Theorem predict_validation_is_predict tf (x : ndarray) (self : TCNAE) :
  predict_validation tf x self = predict tf x self.
Proof.
  unfold predict_validation, predict.
  destruct (model self) as [m|]; reflexivity.
Qed.




End PredictorClaims.

(** ** The trainer *)

Module TrainerFacts.

Import Numpy Keras Tcnae Properties.
Open Scope Z_scope.

(** Linear arithmetic with the minimum delta as an unknown positive
    rational. *)
Ltac delta_lra :=
  assert (0 < 1e-4)%Q by reflexivity;
  set (delta := (1e-4)%Q) in *; clearbody delta; lra.

Lemma Qltb_true (x y : Q) : Qltb x y = true -> (x < y)%Q.
Proof.
  unfold Qltb. intros H. apply negb_true_iff in H.
  apply Qnot_le_lt. intros Hle. apply Qle_bool_iff in Hle. congruence.
Qed.

Lemma Qltb_false (x y : Q) : Qltb x y = false -> (y <= x)%Q.
Proof.
  unfold Qltb. intros H. apply negb_false_iff in H.
  now apply Qle_bool_iff.
Qed.

(** The callback [fit] constructs starts a run knowing nothing. *)
Lemma fresh_callback_tracks tf g l vd :
  tracks_best tf g l vd
    (on_train_begin (new_EarlyStopping "val_loss" 2 1e-4 true)) [].
Proof. repeat split. Qed.

Section WithBackend.

Variable tf : Backend.
Variable vd : ndarray * ndarray.

(** One call of the callback at the end of an epoch. *)
Lemma on_epoch_end_tracks es epoch m hist es' m' :
  tracks_best tf (graph m) (compiled_loss m) vd es hist ->
  stop_training m = false ->
  on_epoch_end tf es epoch {| val_loss := validation_loss tf m vd |} m
    = (es', m') ->
  tracks_best tf (graph m) (compiled_loss m) vd es'
    (hist ++ [{| val_loss := validation_loss tf m vd |}]) /\
  graph m' = graph m /\
  compiled_loss m' = compiled_loss m /\
  (stop_training m' = true -> keras3 tf = false ->
   best_weights es' = Some (weights m')).
Proof.
  intros (Hmon & Hres & Hpat & Hmd & Hbest) Hstop.
  unfold on_epoch_end, get_monitor_value.
  rewrite Hmon, String.eqb_refl, Hres, Hpat. cbn [val_loss andb].
  set (current := validation_loss tf m vd).
  assert (Hnew : forall e,
    (match best es with
     | Some b0 => (current + 1e-4 < b0)%Q
     | None => True
     end) ->
    tracks_best tf (graph m) (compiled_loss m) vd
      (update es 0 (Some current) (Some (weights m)) e)
      (hist ++ [{| val_loss := current |}])).
  { intros e Himp. unfold tracks_best, update;
      cbn [monitor restore_best_weights patience min_delta best
           best_weights].
    split; [assumption|]. split; [assumption|]. split; [assumption|].
    split; [assumption|]. split; [reflexivity|]. split.
    - exists {| val_loss := current |}. split; [|reflexivity].
      apply in_or_app. right. now left.
    - intros lg Hlg. apply in_app_or in Hlg. destruct Hlg as [Hlg|Hlg].
      + destruct (best es) as [b0|]; destruct (best_weights es);
          try contradiction.
        * destruct Hbest as (_ & _ & Hall). specialize (Hall lg Hlg).
          delta_lra.
        * subst hist. contradiction.
      + destruct Hlg as [<-|[]]. cbn [val_loss]. delta_lra. }
  assert (Hold : forall e b0 w0,
    best es = Some b0 -> best_weights es = Some w0 ->
    (b0 <= current + 1e-4)%Q ->
    tracks_best tf (graph m) (compiled_loss m) vd
      (update es (wait es + 1) (Some b0) (Some w0) e)
      (hist ++ [{| val_loss := current |}])).
  { intros e b0 w0 Eb Ew Hle. rewrite Eb, Ew in Hbest.
    destruct Hbest as (Hb0 & (lg0 & Hin0 & Hv0) & Hall).
    unfold tracks_best, update;
      cbn [monitor restore_best_weights patience min_delta best
           best_weights].
    split; [assumption|]. split; [assumption|]. split; [assumption|].
    split; [assumption|]. split; [assumption|]. split.
    - exists lg0. split; [|assumption]. apply in_or_app. now left.
    - intros lg Hlg. apply in_app_or in Hlg.
      destruct Hlg as [Hlg|Hlg]; [now apply Hall|].
      destruct Hlg as [<-|[]]. exact Hle. }
  destruct (best es) as [b0|] eqn:Eb;
    destruct (best_weights es) as [w0|] eqn:Ew; try contradiction.
  - (* a best value is known *)
    unfold is_improvement. rewrite Hmd.
    destruct (Qltb (current - - Qabs 1e-4) b0) eqn:Himp.
    + (* improvement *)
      apply Qltb_true in Himp. change (Qabs 1e-4) with (1e-4)%Q in Himp.
      assert (Himp' : (current + 1e-4 < b0)%Q) by delta_lra.
      cbn [andb].
      destruct (keras3 tf); intros [= <- <-];
        (split; [now apply Hnew|]); (split; [reflexivity|]);
        (split; [reflexivity|]); intros Hs; congruence.
    + (* no improvement *)
      apply Qltb_false in Himp. change (Qabs 1e-4) with (1e-4)%Q in Himp.
      assert (Hle : (b0 <= current + 1e-4)%Q) by delta_lra.
      cbn [andb].
      destruct ((2 <=? wait es + 1) && (0 <? epoch)).
      * destruct (keras3 tf) eqn:Ek; cbn [negb]; intros [= <- <-];
          (split; [now apply Hold|]); (split; [reflexivity|]);
          (split; [reflexivity|]); intros _ Hk;
          [discriminate|reflexivity].
      * intros [= <- <-].
        split; [now apply Hold|]. split; [reflexivity|].
        split; [reflexivity|]. intros Hs; congruence.
  - (* the first epoch of the run *)
    cbn [is_improvement andb].
    destruct (keras3 tf); intros [= <- <-];
      (split; [now apply Hnew|]); (split; [reflexivity|]);
      (split; [reflexivity|]); intros Hs; congruence.
Qed.

(** The epochs of a run with the callback of [fit] as the only
    callback. *)
Lemma run_epochs_tracks x y batch_size shuffle n :
  forall epoch m es hist hist' m' cbs',
  tracks_best tf (graph m) (compiled_loss m) vd es hist ->
  stop_training m = false ->
  run_epochs tf n epoch m x y batch_size shuffle vd [es] hist
    = (hist', m', cbs') ->
  exists es',
    cbs' = [es'] /\
    tracks_best tf (graph m) (compiled_loss m) vd es' hist' /\
    graph m' = graph m /\
    compiled_loss m' = compiled_loss m /\
    (stop_training m' = true -> keras3 tf = false ->
     best_weights es' = Some (weights m')) /\
    (stop_training m' = true -> hist' <> []).
Proof.
  induction n as [|n IH]; intros epoch m es hist hist' m' cbs' Htr Hstop.
  - cbn [run_epochs]. intros [= <- <- <-]. exists es.
    repeat (split; [assumption || reflexivity|]).
    split; intros Hs; congruence.
  - cbn [run_epochs callbacks_on_epoch_end].
    set (m1 := set_trained m
                 (train_epoch tf m x y batch_size shuffle epoch)).
    destruct (on_epoch_end tf es epoch
                {| val_loss := validation_loss tf m1 vd |} m1)
      as [es1 m2] eqn:E.
    destruct (on_epoch_end_tracks es epoch m1 hist es1 m2 Htr Hstop E)
      as (Htr1 & Hg & Hl & Hbw).
    destruct (stop_training m2) eqn:Hs2.
    + intros [= <- <- <-]. exists es1.
      split; [reflexivity|]. split; [exact Htr1|].
      split; [exact Hg|]. split; [exact Hl|]. split.
      * intros _. now apply Hbw.
      * intros _ Hnil. now apply app_eq_nil in Hnil.
    + intros Hrun.
      rewrite <- Hg, <- Hl in Htr1.
      destruct (IH _ _ _ _ _ _ _ Htr1 Hs2 Hrun)
        as (es' & Hc & Htr' & Hg' & Hl' & Hbw' & Hne).
      exists es'. rewrite Hg, Hl in Htr'.
      split; [exact Hc|]. split; [exact Htr'|].
      split; [now rewrite Hg'|]. split; [now rewrite Hl'|].
      split; assumption.
Qed.

(** A run of [model.fit] with the callback of [fit]. *)
Lemma keras_fit_tracks m x y batch_size epochs shuffle verbose hist m' :
  Keras.fit tf m x y batch_size epochs vd shuffle
    (Some [new_EarlyStopping "val_loss" 2 1e-4 true]) verbose
    = Ok (hist, m') ->
  (stop_training m' = true \/ keras3 tf = true ->
   within_of_all tf 1e-4 hist m' vd) /\
  (stop_training m' = true ->
   exists lg, In lg hist /\ validation_loss tf m' vd = val_loss lg).
Proof.
  unfold Keras.fit.
  destruct (compiled_loss m) as [l|] eqn:Hloss; [|discriminate].
  destruct ((0 <? epochs) && negb (step_ok tf m x y)); [discriminate|].
  destruct ((0 <? epochs) && negb (step_ok tf m (fst vd) (snd vd)));
    [discriminate|].
  cbn [map].
  destruct (run_epochs _ _ _ _ _ _ _ _ _ _ _) as [[h m1] cbs'] eqn:Hrun.
  intros [= <- <-].
  pose proof (fresh_callback_tracks tf
                (graph (set_stop_training m false))
                (compiled_loss (set_stop_training m false)) vd) as H0.
  destruct (run_epochs_tracks _ _ _ _ _ _ _ _ _ _ _ _ H0 eq_refl Hrun)
    as (es' & -> & Htr & Hg & Hl & Hbw & Hne).
  cbn [callbacks_on_train_end fold_left]. unfold on_train_end.
  destruct Htr as (_ & Hres & _ & _ & Hbest). rewrite Hres. cbn [andb].
  destruct (best es') as [b|]; destruct (best_weights es') as [w|];
    try contradiction.
  - destruct Hbest as (Hb & (lg0 & Hin0 & Hv0) & Hall).
    destruct (keras3 tf) eqn:Ek.
    + assert (Hval : validation_loss tf (set_weights m1 w) vd = b).
      { unfold validation_loss. rewrite Hb.
        change (graph (set_weights m1 w)) with (graph m1).
        change (compiled_loss (set_weights m1 w)) with (compiled_loss m1).
        now rewrite Hg, Hl. }
      split.
      * intros _ lg Hlg. rewrite Hval. now apply Hall.
      * intros _. exists lg0. rewrite Hval. auto.
    + assert (Hval : stop_training m1 = true ->
                     validation_loss tf m1 vd = b).
      { intros Hs. specialize (Hbw Hs eq_refl).
        injection Hbw as ->. unfold validation_loss.
        now rewrite Hb, Hg, Hl. }
      split.
      * intros [Hs|Hk]; [|discriminate].
        intros lg Hlg. rewrite (Hval Hs). now apply Hall.
      * intros Hs. exists lg0. rewrite (Hval Hs). auto.
  - subst h. split.
    + intros _ lg [].
    + intros Hs. exfalso. now apply Hne.
Qed.

(** A backend sees the same run whether it is handed its targets or
    takes its inputs for targets, when the targets are the inputs. *)
Lemma callbacks_self_supervised cbs epoch logs m :
  callbacks_on_epoch_end (self_supervised tf) cbs epoch logs m
    = callbacks_on_epoch_end tf cbs epoch logs m.
Proof.
  revert m; induction cbs as [|es rest IH]; intros m; [reflexivity|].
  cbn [callbacks_on_epoch_end].
  change (on_epoch_end (self_supervised tf) es epoch logs m)
    with (on_epoch_end tf es epoch logs m).
  destruct (on_epoch_end tf es epoch logs m) as [es' m1].
  now rewrite IH.
Qed.

Lemma run_epochs_self_supervised x xv batch_size shuffle n :
  forall epoch m cbs hist,
  run_epochs (self_supervised tf) n epoch m x x batch_size shuffle
    (xv, xv) cbs hist
  = run_epochs tf n epoch m x x batch_size shuffle (xv, xv) cbs hist.
Proof.
  induction n as [|n IH]; intros epoch m cbs hist; [reflexivity|].
  cbn [run_epochs]. rewrite callbacks_self_supervised.
  change (train_epoch (self_supervised tf) m x x batch_size shuffle epoch)
    with (train_epoch tf m x x batch_size shuffle epoch).
  set (m1 := set_trained m _).
  change (validation_loss (self_supervised tf) m1 (xv, xv))
    with (validation_loss tf m1 (xv, xv)).
  destruct (callbacks_on_epoch_end tf cbs epoch _ m1) as [cbs' m2].
  destruct (stop_training m2); [reflexivity|apply IH].
Qed.

Lemma keras_fit_self_supervised m x xv batch_size epochs shuffle cbs v :
  Keras.fit (self_supervised tf) m x x batch_size epochs (xv, xv)
    shuffle cbs v
  = Keras.fit tf m x x batch_size epochs (xv, xv) shuffle cbs v.
Proof.
  unfold Keras.fit.
  destruct (compiled_loss m); [|reflexivity].
  change (step_ok (self_supervised tf)) with (step_ok tf).
  destruct ((0 <? epochs) && negb (step_ok tf m x x)); [reflexivity|].
  destruct ((0 <? epochs) && negb (step_ok tf m _ _)); [reflexivity|].
  rewrite run_epochs_self_supervised.
  destruct (run_epochs _ _ _ _ _ _ _ _ _ _ _) as [[h m1] cbs'].
  reflexivity.
Qed.

End WithBackend.

End TrainerFacts.

(** ** Claims about the trainer *)

Module TrainerClaims.

Import Numpy Keras Tcnae Properties Examples TrainerFacts.
Open Scope Z_scope.

(** C7, as amended.  With the early-stopping flag enabled, [fit] runs
    the framework's training with the callback
    [EarlyStopping(monitor='val_loss', patience=2, min_delta=1e-4,
    restore_best_weights=True)] and keeps the model it leaves.  When
    the callback has halted the training, that model has the
    parameters of one of the epochs run, and its validation loss is at
    most the minimum delta 1e-4 above every validation loss logged
    during the run; under Keras 3 the bound holds for every run. *)
Theorem fit_early_stopping
    tf (self self' : TCNAE) (X_train X_valid : ndarray)
    (batch_size epochs verbose : Z) (u : unit) :
  use_early_stopping self = true ->
  fit tf X_train X_valid batch_size epochs verbose self = Ok (u, self') ->
  exists m hist m',
    model self = Some m /\
    Keras.fit tf m X_train X_train batch_size epochs (X_valid, X_valid)
      true (Some [new_EarlyStopping "val_loss" 2 1e-4 true])
      (if 0 <? verbose then 2 else 0) = Ok (hist, m') /\
    model self' = Some m' /\
    (stop_training m' = true ->
     within_of_all tf 1e-4 hist m' (X_valid, X_valid) /\
     exists lg, In lg hist /\
                validation_loss tf m' (X_valid, X_valid) = val_loss lg) /\
    (keras3 tf = true ->
     within_of_all tf 1e-4 hist m' (X_valid, X_valid)).
Proof.
  intros Hes. unfold fit. rewrite Hes.
  destruct (model self) as [m|]; [|discriminate].
  destruct (Keras.fit _ _ _ _ _ _ _ _ _ _) as [[hist m']|] eqn:Hfit;
    [|discriminate].
  cbn [rbind snd]. intros [= _ <-].
  exists m, hist, m'. split; [reflexivity|]. split; [exact Hfit|].
  split; [reflexivity|].
  destruct (keras_fit_tracks tf (X_valid, X_valid) _ _ _ _ _ _ _ _ _ Hfit)
    as [Hwithin Hsome].
  split.
  - intros Hs. split; [apply Hwithin; now left|now apply Hsome].
  - intros Hk. apply Hwithin. now right.
Qed.

Lemma fit_early_stopping_witness :
  use_early_stopping (stopper false) = true /\
  fit (counting false) batch1 batch1 32 40 1 (stopper false)
    = Ok (tt, after_fit false) /\
  exists m hist m',
    model (stopper false) = Some m /\
    Keras.fit (counting false) m batch1 batch1 32 40 (batch1, batch1)
      true (Some [new_EarlyStopping "val_loss" 2 1e-4 true])
      (if 0 <? 1 then 2 else 0) = Ok (hist, m') /\
    model (after_fit false) = Some m' /\
    (stop_training m' = true ->
     within_of_all (counting false) 1e-4 hist m' (batch1, batch1) /\
     exists lg, In lg hist /\
                validation_loss (counting false) m' (batch1, batch1)
                  = val_loss lg) /\
    (keras3 (counting false) = true ->
     within_of_all (counting false) 1e-4 hist m' (batch1, batch1)).
Proof.
  split; [vm_compute; reflexivity|].
  split; [vm_compute; reflexivity|].
  apply (fit_early_stopping (counting false) (stopper false)
           (after_fit false) batch1 batch1 32 40 1 tt).
  - vm_compute. reflexivity.
  - vm_compute. reflexivity.
Defined.

(** C7, as stated, fails.  With validation losses 1, 0.99995 and
    0.99995 the callback halts the run after the third epoch and
    restores the parameters of the first, whose validation loss 1 is
    worse than the 0.99995 of both epochs of the patience window.  This
    is so whether the parameters are restored when the training is
    halted or when it ends. *)
Lemma early_stopping_counterexample :
  (use_early_stopping (stopper false) = true /\
   fit (counting false) batch1 batch1 32 40 1 (stopper false)
     = Ok (tt, after_fit false) /\
   Keras.fit (counting false) (the_model (counting false) (stopper false))
     batch1 batch1 32 40 (batch1, batch1) true
     (callbacks_of (stopper false)) 2 = Ok (run40 false) /\
   model (after_fit false) = Some (snd (run40 false)) /\
   stop_training (snd (run40 false)) = true /\
   length (fst (run40 false)) = 3%nat /\
   ~ never_worse_than (counting false) 2 (fst (run40 false))
       (snd (run40 false)) (batch1, batch1)) /\
  (use_early_stopping (stopper true) = true /\
   fit (counting true) batch1 batch1 32 40 1 (stopper true)
     = Ok (tt, after_fit true) /\
   Keras.fit (counting true) (the_model (counting true) (stopper true))
     batch1 batch1 32 40 (batch1, batch1) true
     (callbacks_of (stopper true)) 2 = Ok (run40 true) /\
   model (after_fit true) = Some (snd (run40 true)) /\
   stop_training (snd (run40 true)) = true /\
   length (fst (run40 true)) = 3%nat /\
   ~ never_worse_than (counting true) 2 (fst (run40 true))
       (snd (run40 true)) (batch1, batch1)).
Proof.
  split.
  - split; [vm_compute; reflexivity|].
    split; [vm_compute; reflexivity|].
    split; [vm_compute; reflexivity|].
    split; [vm_compute; reflexivity|].
    split; [vm_compute; reflexivity|].
    split; [vm_compute; reflexivity|].
    intros H. specialize (H (nth 2 (fst (run40 false)) {| val_loss := 0 |})).
    assert (Hin : In (nth 2 (fst (run40 false)) {| val_loss := 0 |})
                     (window_of 2 (fst (run40 false))))
      by (vm_compute; right; left; reflexivity).
    specialize (H Hin). vm_compute in H. apply H. reflexivity.
  - split; [vm_compute; reflexivity|].
    split; [vm_compute; reflexivity|].
    split; [vm_compute; reflexivity|].
    split; [vm_compute; reflexivity|].
    split; [vm_compute; reflexivity|].
    split; [vm_compute; reflexivity|].
    intros H. specialize (H (nth 2 (fst (run40 true)) {| val_loss := 0 |})).
    assert (Hin : In (nth 2 (fst (run40 true)) {| val_loss := 0 |})
                     (window_of 2 (fst (run40 true))))
      by (vm_compute; right; left; reflexivity).
    specialize (H Hin). vm_compute in H. apply H. reflexivity.
Qed.

(** C10.  [fit] hands the training batch to the framework as inputs
    and as targets and the validation batch as validation inputs and
    as validation targets; it takes no other array, and the run is the
    one of a backend that takes its inputs for targets. *)
Theorem fit_targets_are_inputs
    tf (self : TCNAE) (X_train X_valid : ndarray)
    (batch_size epochs verbose : Z) :
  fit tf X_train X_valid batch_size epochs verbose self
    = match model self with
      | None => Raise AttributeError
      | Some m =>
          rbind (Keras.fit tf m X_train X_train batch_size epochs
                   (X_valid, X_valid) true (callbacks_of self)
                   (if 0 <? verbose then 2 else 0))
                (fun r => Ok (tt, set_model self (Some (snd r))))
      end /\
  fit (self_supervised tf) X_train X_valid batch_size epochs verbose self
    = fit tf X_train X_valid batch_size epochs verbose self.
Proof.
  split; [reflexivity|].
  unfold fit. destruct (model self) as [m|]; [|reflexivity].
  now rewrite keras_fit_self_supervised.
Qed.

End TrainerClaims.

(** ** More about the model builder *)

Module BuilderExtras.

Import Numpy Keras Tcnae Properties Examples KerasFacts BuilderFacts.
Open Scope Z_scope.

(** Pooling by [s] and upsampling by [s] rounds the length of the axis
    down to a multiple of [s]. *)
Lemma bottleneck_length (n : nat) (s : Z) :
  0 < s <= Z.of_nat n ->
  upsampled_length (pooled_length n s) s
  = Z.to_nat (Z.of_nat n - Z.of_nat n mod s).
Proof.
  intros Hs. unfold upsampled_length, pooled_length.
  replace (Z.of_nat n - s) with (Z.of_nat n + (-1) * s) by lia.
  rewrite Z.div_add by lia.
  assert (H0 : 0 <= Z.of_nat n / s) by (apply Z.div_pos; lia).
  rewrite Z2Nat.id by lia.
  rewrite (Z.mod_eq (Z.of_nat n) s) by lia. f_equal. lia.
Qed.

(** Every field of the model a successful [build_model] stores. *)
Lemma build_model_shapes tf verbose self u self' :
  build_model tf verbose self = Ok (u, self') ->
  exists o m,
    self' = set_model self (Some m) /\
    inputs m = [Input [None; Some 128%nat; Some 1%nat]] /\
    outputs m = [o] /\
    kshape o = [None;
                Some (Z.to_nat (128 - 128 mod latent_sample_rate self));
                Some (Z.to_nat (ts_dimension self))] /\
    0 < latent_sample_rate self <= 128 /\
    0 < ts_dimension self /\
    compiled_loss m = Some (loss self).
Proof.
  unfold build_model. intros H.
  step H E1. step H E2. step H E3. step H E4. step H E5. step H E6.
  injection H as _ <-.
  apply TCN_inv in E1. destruct E1 as (b1 & t1 & c1 & Hi & H1 & Hpad).
  unfold Input in Hi; cbn [kshape] in Hi. injection Hi as <- <- <-.
  pose proof (Conv1D_inv _ _ _ _ _ _ _ _ _ E2 Hpad H1) as H2.
  destruct (Pooling1D_inv _ _ _ _ _ _ _ _ E3 H2) as [Hs H3].
  assert (H3' : kshape (Activation "linear" a1) = kshape a1) by reflexivity.
  rewrite H3 in H3'.
  pose proof (UpSampling1D_inv _ _ _ _ _ _ E4 H3') as H4.
  apply TCN_inv in E5. destruct E5 as (b5 & t5 & c5 & H4' & H5 & _).
  rewrite H4 in H4'. injection H4' as <- <- <-.
  destruct (Dense_inv _ _ _ _ _ _ _ E6 H5) as [Hd H6].
  rewrite (bottleneck_length 128 _ Hs) in H6.
  eexists a4, _. split; [reflexivity|].
  cbn [inputs outputs compiled_loss compile new_Model].
  split; [reflexivity|]. split; [reflexivity|]. split; [exact H6|].
  split; [exact Hs|]. split; [exact Hd|reflexivity].
Qed.

(** X1.  The output of the model [build_model] stores has an unknown
    batch dimension, [128 - 128 mod latent_sample_rate] time steps and
    [ts_dimension] channels; it has the 128 steps of the input exactly
    when the sampling factor divides 128. *)
Theorem build_model_output_shape tf verbose self u self' :
  build_model tf verbose self = Ok (u, self') ->
  exists m o steps,
    model self' = Some m /\ outputs m = [o] /\
    kshape o = [None; Some steps; Some (Z.to_nat (ts_dimension self))] /\
    Z.of_nat steps = 128 - 128 mod latent_sample_rate self /\
    (steps = 128%nat <-> 128 mod latent_sample_rate self = 0).
Proof.
  intros H. apply build_model_shapes in H.
  destruct H as (o & m & -> & _ & Ho & Hk & Hs & _ & _).
  pose proof (Z.mod_pos_bound 128 (latent_sample_rate self)) as Hm.
  exists m, o, (Z.to_nat (128 - 128 mod latent_sample_rate self)).
  split; [reflexivity|]. split; [exact Ho|]. split; [exact Hk|].
  split; lia.
Qed.

Lemma build_model_output_shape_witness :
  build_model (counting false) 1 (blank 1 42 false)
    = Ok (tt, instance (counting false) 1 42 false) /\
  exists m o steps,
    model (instance (counting false) 1 42 false) = Some m /\
    outputs m = [o] /\
    kshape o = [None; Some steps;
                Some (Z.to_nat (ts_dimension (blank 1 42 false)))] /\
    Z.of_nat steps = 128 - 128 mod latent_sample_rate (blank 1 42 false) /\
    (steps = 128%nat <-> 128 mod latent_sample_rate (blank 1 42 false) = 0).
Proof.
  split.
  - vm_compute. reflexivity.
  - apply (build_model_output_shape (counting false) 1 (blank 1 42 false) tt).
    vm_compute. reflexivity.
Defined.

(** [build_model] does not read the model the object holds. *)
Lemma build_model_ignores_model tf verbose self mo :
  build_model tf verbose (set_model self mo) = build_model tf verbose self.
Proof. reflexivity. Qed.

End BuilderExtras.

(** ** More about the predictor *)

Module PredictorExtras.

Import Numpy Keras Tcnae Properties Examples.
Import NumpyFacts BuilderFacts PredictorFacts BuilderExtras.
Open Scope Z_scope.

Lemma compatible_inv (t c : nat) (s : list nat) :
  compatible [None; Some t; Some c] s = true -> exists b, s = [b; t; c].
Proof.
  destruct s as [|b [|t' [|c' [|? ?]]]]; cbn [compatible];
    try discriminate.
  - destruct (t =? t')%nat; discriminate.
  - destruct (Nat.eqb_spec t t') as [<-|]; [|discriminate].
    destruct (Nat.eqb_spec c c') as [<-|]; [|discriminate].
    intros _. now exists b.
  - destruct (t =? t')%nat; [|discriminate].
    destruct (c =? c')%nat; discriminate.
Qed.

(** The constructor's instance, with the time steps of its output. *)
Lemma init_shapes tf ts dil nf ks ns pad dr fc act lsr pool lr ini lo es v self :
  __init__ tf ts dil nf ks ns pad dr fc act lsr pool lr ini lo es v
    = Ok self ->
  exists o m,
    model self = Some m /\
    inputs m = [Input [None; Some 128%nat; Some 1%nat]] /\
    outputs m = [o] /\
    kshape o = [None; Some (Z.to_nat (128 - 128 mod lsr));
                Some (Z.to_nat ts)] /\
    0 < lsr <= 128 /\
    0 < ts /\
    compiled_loss m = Some (PyTuple [PyStr lo]) /\
    use_early_stopping self = es.
Proof.
  unfold __init__. intros H.
  match type of H with
  | rbind ?r _ = _ => destruct r as [[u self']|] eqn:E; [|discriminate]
  end.
  cbn [rbind snd] in H. injection H as <-.
  apply build_model_shapes in E.
  destruct E as (o & m & -> & Hi & Ho & Hk & Hs & Hts & Hl).
  cbn [set_model ts_dimension latent_sample_rate loss model
       use_early_stopping] in *.
  exists o, m. repeat (split; [assumption || reflexivity|]). reflexivity.
Qed.

(** The scores of an instance on an accepted batch. *)
Lemma predict_of_instance
    tf ts dil nf ks ns pad dr fc act lsr pool lr ini lo es v self
    (b : nat) (x : ndarray) :
  __init__ tf ts dil nf ks ns pad dr fc act lsr pool lr ini lo es v
    = Ok self ->
  shape x = [b; 128%nat; 1%nat] ->
  (1 <= b)%nat ->
  exists mse,
    predict tf x self = Ok (mse, self) /\
    shape mse = error_shape [b; 128%nat; Z.to_nat ts].
Proof.
  intros Hinit Hx Hb. apply init_inv in Hinit.
  destruct Hinit as (_ & _ & _ & o & T' & m & Hm & Hi & Ho & Hk & HT & Hts & _).
  destruct (keras_predict_built tf m o T' (Z.to_nat ts) b x Hi Ho Hk Hx Hb)
    as (X_rec & HX & HXs).
  destruct (pad_shape X_rec b T' (Z.to_nat ts) 128 HXs HT) as (P & HP & HPs).
  assert (Hne : 128%nat <> 1%nat) by discriminate.
  destruct (error_of_shape P x b 128 (Z.to_nat ts) HPs Hx Hne)
    as (mse & Hmse & Hshape & _).
  exists mse. split; [|exact Hshape].
  rewrite predict_factors. unfold padded_reconstruction, shape_at.
  rewrite Hm, HX. cbn [rbind]. rewrite Hx, HXs. cbn [rbind nth_error].
  rewrite HP. cbn [rbind fst snd]. rewrite Hmse. reflexivity.
Qed.

(** X2.  On a batch of a single window the squeeze removes the batch
    axis as well: the scores are a zero-dimensional array, one number,
    when [ts_dimension] is 1, and an array of shape (128,) when it is
    larger. *)
Theorem predict_single_window
    tf ts dil nf ks ns pad dr fc act lsr pool lr ini lo es v self
    (x : ndarray) :
  __init__ tf ts dil nf ks ns pad dr fc act lsr pool lr ini lo es v
    = Ok self ->
  shape x = [1; 128; 1]%nat ->
  exists mse,
    predict tf x self = Ok (mse, self) /\
    (ts = 1 -> shape mse = []) /\
    (2 <= ts -> shape mse = [128%nat]).
Proof.
  intros Hinit Hx.
  destruct (predict_of_instance tf ts dil nf ks ns pad dr fc act lsr pool lr
              ini lo es v self 1 x Hinit Hx (le_n 1)) as (mse & Hp & Hs).
  exists mse. split; [exact Hp|]. rewrite Hs. unfold error_shape.
  cbn [filter Nat.eqb negb]. split.
  - intros ->. reflexivity.
  - intros Hts.
    destruct (Nat.eqb_spec (Z.to_nat ts) 1) as [|_]; [lia|]. reflexivity.
Qed.

Lemma predict_single_window_witness :
  create (counting false) 1 42 false
    = Ok (instance (counting false) 1 42 false) /\
  shape batch1 = [1; 128; 1]%nat /\
  exists mse,
    predict (counting false) batch1 (instance (counting false) 1 42 false)
      = Ok (mse, instance (counting false) 1 42 false) /\
    (1 = 1 -> shape mse = []) /\
    (2 <= 1 -> shape mse = [128%nat]).
Proof.
  split; [vm_compute; reflexivity|].
  split; [reflexivity|].
  apply (predict_single_window (counting false) 1 [1; 2; 4; 8; 16] 20 20
           1 "same" 0.00 8 "linear" 42 AveragePooling1D 0.001
           "glorot_normal" "mean_squared_error" false 1
           (instance (counting false) 1 42 false) batch1).
  - vm_compute. reflexivity.
  - reflexivity.
Defined.

(** X3.  Inside [predict] the padded reconstruction is well formed and
    holds the reconstruction on the time steps the decoder produced and
    zeros on the steps after them, in every sequence and channel. *)
Theorem padded_reconstruction_entries
    tf (self : TCNAE) (m : Model) (test_X X_rec : ndarray) (b k c n : nat) :
  model self = Some m ->
  Keras.predict tf m test_X = Ok X_rec ->
  shape X_rec = [b; k; c] ->
  shape_at test_X 1 = Ok n ->
  (k <= n)%nat ->
  exists P,
    padded_reconstruction tf test_X self = Ok (P, self) /\
    well_formed P /\
    forall i t j, (i < b)%nat -> (t < n)%nat -> (j < c)%nat ->
      at3 P i t j = if (t <? k)%nat then at3 X_rec i t j else 0%Q.
Proof.
  intros Hm HX HXs Hn Hk.
  exact (padded_entries tf self m test_X X_rec b k c n Hm HX HXs Hn Hk).
Qed.

Lemma padded_reconstruction_entries_witness :
  model (instance (counting false) 1 42 false)
    = Some (the_model (counting false) (instance (counting false) 1 42 false)) /\
  Keras.predict (counting false)
      (the_model (counting false) (instance (counting false) 1 42 false))
      batch2
    = Ok (get (Keras.predict (counting false)
                 (the_model (counting false)
                    (instance (counting false) 1 42 false)) batch2)
              batch2) /\
  shape (get (Keras.predict (counting false)
                (the_model (counting false)
                   (instance (counting false) 1 42 false)) batch2)
             batch2) = [2; 126; 1]%nat /\
  shape_at batch2 1 = Ok 128%nat /\
  (126 <= 128)%nat /\
  exists P,
    padded_reconstruction (counting false) batch2
        (instance (counting false) 1 42 false)
      = Ok (P, instance (counting false) 1 42 false) /\
    well_formed P /\
    forall i t j, (i < 2)%nat -> (t < 128)%nat -> (j < 1)%nat ->
      at3 P i t j
      = if (t <? 126)%nat
        then at3 (get (Keras.predict (counting false)
                         (the_model (counting false)
                            (instance (counting false) 1 42 false)) batch2)
                      batch2) i t j
        else 0%Q.
Proof.
  split; [vm_compute; reflexivity|].
  split; [vm_compute; reflexivity|].
  split; [vm_compute; reflexivity|].
  split; [reflexivity|].
  split; [lia|].
  apply (padded_reconstruction_entries (counting false)
           (instance (counting false) 1 42 false)
           (the_model (counting false) (instance (counting false) 1 42 false))
           batch2
           (get (Keras.predict (counting false)
                   (the_model (counting false)
                      (instance (counting false) 1 42 false)) batch2)
                batch2)
           2 126 1 128).
  - vm_compute. reflexivity.
  - vm_compute. reflexivity.
  - vm_compute. reflexivity.
  - reflexivity.
  - lia.
Defined.

Lemma size_of_rev (s : list nat) : size_of (rev s) = size_of s.
Proof.
  induction s as [|d s IH]; [reflexivity|].
  cbn [rev]. rewrite size_of_app, IH. unfold size_of. cbn [fold_right]. nia.
Qed.

(** Between arrays of one shape nothing is broadcast: position [k] of
    the result reads position [k] of the operand. *)
Lemma offset_same (r : list nat) :
  forall k, (k < size_of r)%nat -> offset_rev r r k = k.
Proof.
  induction r as [|d r IH]; intros k Hk; cbn [size_of fold_right] in Hk.
  - cbn [offset_rev]. lia.
  - cbn [offset_rev].
    assert (Hd : d <> 0%nat) by (intros ->; lia).
    assert (Hq : (k / d < size_of r)%nat)
      by (apply Nat.Div0.div_lt_upper_bound; exact Hk).
    rewrite (IH _ Hq).
    pose proof (Nat.div_mod_eq k d) as Hdm.
    destruct (Nat.eqb_spec d 1) as [->|_].
    + rewrite Nat.div_1_r. lia.
    + lia.
Qed.

Lemma broadcast_rev_same (r : list nat) : broadcast_rev r r = Some r.
Proof.
  induction r as [|d r IH]; [reflexivity|].
  cbn [broadcast_rev]. now rewrite IH, Nat.eqb_refl.
Qed.

Lemma broadcast_same (s : list nat) : broadcast_shapes s s = Some s.
Proof.
  unfold broadcast_shapes. rewrite broadcast_rev_same. cbn [option_map].
  now rewrite rev_involutive.
Qed.

Lemma item_same_shape (a : ndarray) (k : nat) :
  (k < size_of (shape a))%nat -> item a (shape a) k = nth k (data a) 0%Q.
Proof.
  intros Hk. unfold item. rewrite offset_same; [reflexivity|].
  now rewrite size_of_rev.
Qed.

Lemma nth_map_seq (f : nat -> Q) (n k : nat) :
  (k < n)%nat -> nth k (map f (seq 0 n)) 0%Q = f k.
Proof.
  intros Hk. rewrite (nth_indep _ 0%Q (f 0%nat))
    by (now rewrite length_map, length_seq).
  rewrite map_nth, seq_nth by exact Hk. reflexivity.
Qed.

Lemma unpadded_blocks (b n : nat) :
  forall l, length l = (b * n)%nat ->
  flat_map (fun blk => blk ++ zeros 0) (chunks b n l) = l.
Proof.
  induction b as [|b IH]; intros l Hl; cbn [chunks flat_map].
  - destruct l; [reflexivity|discriminate].
  - rewrite IH by (rewrite length_skipn; nia).
    unfold zeros. cbn [repeat]. rewrite app_nil_r. apply firstn_skipn.
Qed.

(** Padding by nothing leaves a well-formed array as it is. *)
Lemma pad_nothing (a : ndarray) (b m c : nat) :
  well_formed a -> shape a = [b; m; c] -> pad a 0 = Ok a.
Proof.
  unfold well_formed, pad. intros Hwf Hs. rewrite Hs in *.
  cbn [size_of fold_right] in Hwf. cbn [Z.ltb Z.compare Z.to_nat Nat.mul].
  rewrite unpadded_blocks by nia. rewrite Nat.add_0_r, <- Hs.
  now destruct a.
Qed.

Lemma Qsum_zero (l : list Q) :
  Forall (fun q => q == 0)%Q l -> (Qsum l == 0)%Q.
Proof.
  induction 1 as [|q l Hq _ IH]; cbn [Qsum fold_right]; [reflexivity|].
  fold (Qsum l). rewrite Hq, IH. reflexivity.
Qed.

Lemma mean_last_zero (a r : ndarray) :
  all_zero a -> mean_last a = Ok r -> all_zero r.
Proof.
  unfold all_zero, mean_last. intros Ha.
  destruct (shape a) as [|d s]; [discriminate|].
  intros [= <-]. cbn [data].
  apply Forall_forall. intros q Hq.
  apply in_map_iff in Hq. destruct Hq as [blk [<- Hblk]].
  pose proof (chunks_Forall (fun q => q == 0)%Q
                (size_of (removelast (d :: s))) (last (d :: s) 0%nat) _ Ha)
    as Hall.
  rewrite Forall_forall in Hall. specialize (Hall blk Hblk).
  unfold mean_of, Qdiv. rewrite (Qsum_zero blk Hall). apply Qmult_0_l.
Qed.

(** The error of an array against one of the same shape and entries. *)
Lemma error_of_zero (P x mse : ndarray) :
  shape P = shape x ->
  (forall k, (k < size_of (shape x))%nat ->
             (nth k (data P) 0 == nth k (data x) 0)%Q) ->
  error_of P x = Ok mse ->
  all_zero mse.
Proof.
  intros Hs Heq. unfold error_of, subtract.
  rewrite Hs, broadcast_same. cbn [rbind].
  apply mean_last_zero. unfold all_zero. cbn [square squeeze data].
  apply Forall_forall. intros q Hq.
  apply in_map_iff in Hq. destruct Hq as [d [<- Hd]].
  apply in_map_iff in Hd. destruct Hd as [k [<- Hk]].
  apply in_seq in Hk.
  rewrite <- Hs at 1. rewrite !item_same_shape by (rewrite ?Hs; lia).
  rewrite (Heq k) by lia. unfold Qminus. rewrite Qplus_opp_r.
  reflexivity.
Qed.

Lemma keras_predict_data tf (m : Model) (o : KerasTensor) (x X_rec : ndarray) :
  outputs m = [o] ->
  Keras.predict tf m x = Ok X_rec ->
  data X_rec = map (forward tf (history o) (weights m) x)
                   (seq 0 (size_of (shape X_rec))).
Proof.
  intros Ho. unfold Keras.predict. rewrite Ho.
  destruct (inputs m) as [|i [|? ?]]; try discriminate.
  destruct (shape x) as [|b rest]; try discriminate.
  destruct (negb _); [discriminate|].
  destruct (b =? 0)%nat; [discriminate|].
  intros [= <-]. reflexivity.
Qed.

(** X4.  When the sampling factor divides 128 and the network of a
    univariate instance, with the parameters the instance holds,
    returns its input on a batch, every score of [predict] on that batch
    is zero. *)
Theorem perfect_reconstruction_scores_zero
    tf dil nf ks ns pad dr fc act lsr pool lr ini lo es v self
    (b : nat) (x : ndarray) :
  __init__ tf 1 dil nf ks ns pad dr fc act lsr pool lr ini lo es v
    = Ok self ->
  128 mod lsr = 0 ->
  shape x = [b; 128; 1]%nat ->
  (1 <= b)%nat ->
  (forall m, model self = Some m ->
   forall k, (k < b * 128)%nat ->
             (forward tf (graph m) (weights m) x k == nth k (data x) 0)%Q) ->
  exists mse, predict tf x self = Ok (mse, self) /\ all_zero mse.
Proof.
  intros Hinit Hdiv Hx Hb Hecho. apply init_shapes in Hinit.
  destruct Hinit as (o & m & Hm & Hi & Ho & Hk & _).
  specialize (Hecho m Hm). unfold graph in Hecho. rewrite Ho in Hecho.
  cbn [flat_map] in Hecho. rewrite app_nil_r in Hecho.
  rewrite Hdiv in Hk.
  change (Z.to_nat (128 - 0)) with 128%nat in Hk.
  change (Z.to_nat 1) with 1%nat in Hk.
  destruct (keras_predict_built tf m o 128 1 b x Hi Ho Hk Hx Hb)
    as (X_rec & HX & HXs).
  pose proof (keras_predict_well_formed tf m x X_rec HX) as Hwf.
  pose proof (keras_predict_data tf m o x X_rec Ho HX) as Hdata.
  pose proof (pad_nothing X_rec b 128 1 Hwf HXs) as Hpad.
  assert (Hne : 128%nat <> 1%nat) by discriminate.
  destruct (error_of_shape X_rec x b 128 1 HXs Hx Hne)
    as (mse & Hmse & _ & _).
  exists mse. split.
  - rewrite predict_factors. unfold padded_reconstruction, shape_at.
    rewrite Hm, HX. cbn [rbind]. rewrite Hx, HXs. cbn [rbind nth_error].
    rewrite Z.sub_diag, Hpad. cbn [rbind fst snd]. rewrite Hmse.
    reflexivity.
  - apply (error_of_zero X_rec x mse); [congruence| |exact Hmse].
    intros k Hk'. rewrite Hx in Hk'. cbn [size_of fold_right] in Hk'.
    rewrite Hdata, HXs, nth_map_seq by (cbn [size_of fold_right]; lia).
    apply Hecho. lia.
Qed.

Lemma perfect_reconstruction_scores_zero_witness :
  create echo 1 32 false = Ok (instance echo 1 32 false) /\
  128 mod 32 = 0 /\
  shape ramp2 = [2; 128; 1]%nat /\
  (1 <= 2)%nat /\
  (forall m, model (instance echo 1 32 false) = Some m ->
   forall k, (k < 2 * 128)%nat ->
             (forward echo (graph m) (weights m) ramp2 k
              == nth k (data ramp2) 0)%Q) /\
  exists mse,
    predict echo ramp2 (instance echo 1 32 false)
      = Ok (mse, instance echo 1 32 false) /\
    all_zero mse.
Proof.
  split; [vm_compute; reflexivity|].
  split; [reflexivity|].
  split; [reflexivity|].
  split; [lia|].
  split.
  { intros m Hm k _. vm_compute in Hm. injection Hm as <-.
    cbn [echo forward weights nth]. apply Qmult_1_l. }
  apply (perfect_reconstruction_scores_zero echo [1; 2; 4; 8; 16] 20 20
           1 "same" 0.00 8 "linear" 32 AveragePooling1D 0.001
           "glorot_normal" "mean_squared_error" false 1
           (instance echo 1 32 false) 2 ramp2).
  - vm_compute. reflexivity.
  - reflexivity.
  - reflexivity.
  - lia.
  - intros m Hm k _. vm_compute in Hm. injection Hm as <-.
    cbn [echo forward weights nth]. apply Qmult_1_l.
Defined.

End PredictorExtras.

(** ** More about the trainer *)

Module TrainerExtras.

Import Numpy Keras Tcnae Properties Examples.
Import BuilderFacts PredictorFacts TrainerFacts BuilderExtras PredictorExtras.
Open Scope Z_scope.

Lemma same_settings_refl (m : Model) : same_settings m m.
Proof. repeat split. Qed.

Lemma same_settings_trans (m1 m2 m3 : Model) :
  same_settings m1 m2 -> same_settings m2 m3 -> same_settings m1 m3.
Proof.
  intros (A1 & A2 & A3 & A4 & A5) (B1 & B2 & B3 & B4 & B5).
  unfold same_settings. repeat split; congruence.
Qed.

Lemma in_firstn_le {A} (x : A) (l : list A) (a b : nat) :
  (a <= b)%nat -> In x (firstn a l) -> In x (firstn b l).
Proof.
  revert a b; induction l as [|y l IH]; intros a b Hab Hin.
  - now rewrite firstn_nil in *.
  - destruct a as [|a]; [contradiction|].
    destruct b as [|b]; [lia|]. cbn [firstn] in *.
    destruct Hin as [->|Hin]; [now left|right].
    apply (IH a b); [lia|exact Hin].
Qed.

Section WithBackend.

Variable tf : Backend.

Lemma on_epoch_end_settings es epoch logs m es' m' :
  on_epoch_end tf es epoch logs m = (es', m') -> same_settings m m'.
Proof.
  unfold on_epoch_end.
  destruct (get_monitor_value es logs) as [current|];
    [|intros [= _ <-]; apply same_settings_refl].
  destruct (is_improvement es current (best es) && keras3 tf);
    [intros [= _ <-]; apply same_settings_refl|].
  destruct ((patience es <=? _) && (0 <? epoch));
    [|intros [= _ <-]; apply same_settings_refl].
  intros [= _ <-].
  destruct (if _ : bool then _ else _) as [w|]; [|repeat split].
  destruct (restore_best_weights es && negb (keras3 tf)); repeat split.
Qed.

Lemma callbacks_on_epoch_end_settings cbs epoch logs :
  forall m cbs' m',
  callbacks_on_epoch_end tf cbs epoch logs m = (cbs', m') ->
  same_settings m m' /\ length cbs' = length cbs.
Proof.
  induction cbs as [|es rest IH]; intros m cbs' m'; cbn [callbacks_on_epoch_end].
  - intros [= <- <-]. split; [apply same_settings_refl|reflexivity].
  - destruct (on_epoch_end tf es epoch logs m) as [es1 m1] eqn:E1.
    destruct (callbacks_on_epoch_end tf rest epoch logs m1)
      as [rest1 m2] eqn:E2.
    intros [= <- <-].
    apply on_epoch_end_settings in E1. apply IH in E2.
    destruct E2 as [E2 Hlen]. split.
    + now apply (same_settings_trans m m1 m2).
    + cbn [length]. now rewrite Hlen.
Qed.

Lemma callbacks_on_train_end_settings cbs :
  forall m, same_settings m (callbacks_on_train_end tf cbs m).
Proof.
  unfold callbacks_on_train_end.
  induction cbs as [|es rest IH]; intros m; cbn [fold_left].
  - apply same_settings_refl.
  - apply (same_settings_trans m (on_train_end tf es m)); [|apply IH].
    unfold on_train_end.
    destruct (best_weights es); [|apply same_settings_refl].
    destruct (restore_best_weights es && keras3 tf); repeat split.
Qed.

(** Whatever the callbacks, the epochs change neither the endpoints nor
    what [compile] recorded, and log at most one entry each. *)
Lemma run_epochs_settings x y batch_size shuffle vd n :
  forall epoch m cbs hist hist' m' cbs',
  run_epochs tf n epoch m x y batch_size shuffle vd cbs hist
    = (hist', m', cbs') ->
  same_settings m m' /\
  (length hist <= length hist' <= length hist + n)%nat.
Proof.
  induction n as [|n IH]; intros epoch m cbs hist hist' m' cbs';
    cbn [run_epochs].
  - intros [= <- <- <-]. split; [apply same_settings_refl|lia].
  - set (m1 := set_trained m _).
    destruct (callbacks_on_epoch_end tf cbs epoch _ m1) as [cbs1 m2] eqn:E.
    apply callbacks_on_epoch_end_settings in E. destruct E as [E _].
    assert (H1 : same_settings m m2).
    { apply (same_settings_trans m m1 m2); [repeat split|exact E]. }
    destruct (stop_training m2).
    + intros [= <- <- <-]. split; [exact H1|].
      rewrite length_app. cbn [length]. lia.
    + intros Hrun. apply IH in Hrun. destruct Hrun as [H2 Hlen].
      split; [now apply (same_settings_trans m m2 m')|].
      rewrite length_app in Hlen. cbn [length] in Hlen. lia.
Qed.

Lemma keras_fit_settings m x y batch_size epochs vd shuffle cbs v hist m' :
  Keras.fit tf m x y batch_size epochs vd shuffle cbs v = Ok (hist, m') ->
  same_settings m m' /\ (length hist <= Z.to_nat epochs)%nat.
Proof.
  unfold Keras.fit.
  destruct (compiled_loss m); [|discriminate].
  destruct ((0 <? epochs) && negb (step_ok tf m x y)); [discriminate|].
  destruct ((0 <? epochs) && negb (step_ok tf m (fst vd) (snd vd)));
    [discriminate|].
  destruct (run_epochs _ _ _ _ _ _ _ _ _ _ _) as [[h m1] cbs'] eqn:Hrun.
  intros [= <- <-]. apply run_epochs_settings in Hrun.
  destruct Hrun as [H1 Hlen]. split.
  - apply (same_settings_trans m m1 _); [|apply callbacks_on_train_end_settings].
    apply (same_settings_trans m (set_stop_training m false) m1);
      [repeat split|exact H1].
  - cbn [length] in Hlen. lia.
Qed.

(** Without callbacks every epoch is run. *)
Lemma run_epochs_no_callbacks x y batch_size shuffle vd n :
  forall epoch m hist hist' m' cbs',
  stop_training m = false ->
  run_epochs tf n epoch m x y batch_size shuffle vd [] hist
    = (hist', m', cbs') ->
  length hist' = (length hist + n)%nat /\
  stop_training m' = false /\
  cbs' = [].
Proof.
  induction n as [|n IH]; intros epoch m hist hist' m' cbs' Hs;
    cbn [run_epochs callbacks_on_epoch_end].
  - intros [= <- <- <-]. split; [lia|]. split; [exact Hs|reflexivity].
  - set (m1 := set_trained m _).
    change (stop_training m1) with (stop_training m). rewrite Hs.
    intros Hrun. apply IH in Hrun; [|exact Hs].
    destruct Hrun as [Hlen Hs']. split; [|exact Hs'].
    rewrite length_app in Hlen. cbn [length] in Hlen. lia.
Qed.

(** One call of the callback of [fit], as far as its counter goes. *)
Lemma on_epoch_end_counts es epoch logs m hist es' m' :
  counts_wait es hist ->
  stop_training m = false ->
  on_epoch_end tf es epoch logs m = (es', m') ->
  counts_wait es' (hist ++ [logs]) /\
  (stop_training m' = true -> 2 <= wait es').
Proof.
  intros (Hmon & Hpat & Hbest) Hstop.
  unfold on_epoch_end, get_monitor_value.
  rewrite Hmon, String.eqb_refl, Hpat.
  set (current := val_loss logs).
  set (bw0 := match best_weights es with
              | Some w => Some w
              | None => if restore_best_weights es then Some (weights m)
                        else None
              end).
  assert (Hnew : forall bw e,
    counts_wait (update es 0 (Some current) bw e) (hist ++ [logs])).
  { intros bw e. unfold counts_wait, update.
    cbn [monitor patience best wait].
    split; [assumption|]. split; [assumption|].
    rewrite length_app. cbn [length]. split; [lia|].
    exists logs. split; [|reflexivity].
    cbn [Z.to_nat]. rewrite Nat.sub_0_r, firstn_all2
      by (rewrite length_app; cbn [length]; lia).
    apply in_or_app. right. now left. }
  destruct (is_improvement es current (best es)) eqn:Himp.
  - (* improvement *)
    cbn [andb]. cbn [Z.leb Z.compare].
    destruct (keras3 tf); intros [= <- <-];
      (split; [apply Hnew|intros Hs; congruence]).
  - (* no improvement *)
    cbn [andb].
    destruct (best es) as [b0|] eqn:Eb; [|discriminate].
    destruct Hbest as (Hw & lg0 & Hin0 & Hv0).
    assert (Hold : forall e,
      counts_wait (update es (wait es + 1) (Some b0) bw0 e) (hist ++ [logs])).
    { intros e. unfold counts_wait, update.
      cbn [monitor patience best wait].
      split; [assumption|]. split; [assumption|].
      rewrite length_app. cbn [length]. split; [lia|].
      exists lg0. split; [|assumption].
      rewrite firstn_app. apply in_or_app. left.
      apply (in_firstn_le lg0 hist
               (length hist - Z.to_nat (wait es))); [lia|exact Hin0]. }
    destruct (Z.leb_spec 2 (wait es + 1)) as [Hge|Hlt]; cbn [andb].
    + destruct (0 <? epoch).
      * intros [= <- <-]. split; [apply Hold|].
        intros _. cbn [update wait]. exact Hge.
      * intros [= <- <-]. split; [apply Hold|intros Hs; congruence].
    + intros [= <- <-]. split; [apply Hold|intros Hs; congruence].
Qed.

Lemma fresh_callback_counts :
  counts_wait (on_train_begin (new_EarlyStopping "val_loss" 2 1e-4 true)) [].
Proof. repeat split. Qed.

Lemma run_epochs_counts x y batch_size shuffle vd n :
  forall epoch m es hist hist' m' cbs',
  counts_wait es hist ->
  stop_training m = false ->
  run_epochs tf n epoch m x y batch_size shuffle vd [es] hist
    = (hist', m', cbs') ->
  exists es',
    cbs' = [es'] /\
    counts_wait es' hist' /\
    (stop_training m' = true -> 2 <= wait es').
Proof.
  induction n as [|n IH]; intros epoch m es hist hist' m' cbs' Hc Hstop.
  - cbn [run_epochs]. intros [= <- <- <-]. exists es.
    split; [reflexivity|]. split; [exact Hc|intros Hs; congruence].
  - cbn [run_epochs callbacks_on_epoch_end].
    set (m1 := set_trained m _).
    destruct (on_epoch_end tf es epoch _ m1) as [es1 m2] eqn:E.
    destruct (on_epoch_end_counts es epoch _ m1 hist es1 m2 Hc Hstop E)
      as (Hc1 & Hw).
    destruct (stop_training m2) eqn:Hs2.
    + intros [= <- <- <-]. exists es1.
      split; [reflexivity|]. split; [exact Hc1|intros _; now apply Hw].
    + intros Hrun. exact (IH _ _ _ _ _ _ _ Hc1 Hs2 Hrun).
Qed.

(** A run of [model.fit] that the callback of [fit] has halted. *)
Lemma keras_fit_halted vd m x y batch_size epochs shuffle v hist m' :
  Keras.fit tf m x y batch_size epochs vd shuffle
    (Some [new_EarlyStopping "val_loss" 2 1e-4 true]) v = Ok (hist, m') ->
  stop_training m' = true ->
  (3 <= length hist)%nat /\
  exists lg, In lg (firstn (length hist - 2) hist) /\
             validation_loss tf m' vd = val_loss lg.
Proof.
  unfold Keras.fit.
  destruct (compiled_loss m) as [l|] eqn:Hloss; [|discriminate].
  destruct ((0 <? epochs) && negb (step_ok tf m x y)); [discriminate|].
  destruct ((0 <? epochs) && negb (step_ok tf m (fst vd) (snd vd)));
    [discriminate|].
  cbn [map].
  destruct (run_epochs _ _ _ _ _ _ _ _ _ _ _) as [[h m1] cbs'] eqn:Hrun.
  intros [= <- <-].
  pose proof (fresh_callback_tracks tf
                (graph (set_stop_training m false))
                (compiled_loss (set_stop_training m false)) vd) as H0.
  destruct (run_epochs_tracks tf vd _ _ _ _ _ _ _ _ _ _ _ _ H0 eq_refl Hrun)
    as (es' & -> & Htr & Hg & Hl & Hbw & _).
  assert (Hs0 : stop_training (set_stop_training m false) = false)
    by reflexivity.
  destruct (run_epochs_counts _ _ _ _ _ _ _ _ _ _ _ _ _
              fresh_callback_counts Hs0 Hrun)
    as (es'' & [= <-] & Hc & Hw).
  cbn [callbacks_on_train_end fold_left]. unfold on_train_end.
  destruct Htr as (_ & Hres & _ & _ & Hbest).
  destruct Hc as (_ & _ & Hcb). rewrite Hres. cbn [andb].
  destruct (best es') as [b|]; destruct (best_weights es') as [w|];
    try contradiction.
  - destruct Hbest as (Hb & _ & _).
    destruct Hcb as (Hwait & lg & Hin & Hv).
    assert (Hfinal : forall mf,
      stop_training mf = stop_training m1 ->
      graph mf = graph m1 -> compiled_loss mf = compiled_loss m1 ->
      (stop_training m1 = true -> weights mf = w) ->
      stop_training mf = true ->
      (3 <= length h)%nat /\
      exists lg, In lg (firstn (length h - 2) h) /\
                 validation_loss tf mf vd = val_loss lg).
    { intros mf Hsf Hgf Hlf Hwf Hs. rewrite Hsf in Hs.
      specialize (Hw Hs). split; [lia|].
      exists lg. split.
      - apply (in_firstn_le lg h (length h - Z.to_nat (wait es')));
          [lia|exact Hin].
      - unfold validation_loss. rewrite Hgf, Hlf, (Hwf Hs), Hg, Hl, Hv.
        now rewrite Hb. }
    destruct (keras3 tf) eqn:Ek.
    + apply Hfinal; try reflexivity.
    + apply Hfinal; try reflexivity.
      intros Hs. specialize (Hbw Hs eq_refl). now injection Hbw.
  - destruct Hcb as (_ & Hw0). intros Hs. specialize (Hw Hs). lia.
Qed.

End WithBackend.

(** What a call of [fit] that returns has done to the object. *)
Lemma fit_inv
    tf (self self' : TCNAE) (X_train X_valid : ndarray)
    (batch_size epochs verbose : Z) (u : unit) :
  fit tf X_train X_valid batch_size epochs verbose self = Ok (u, self') ->
  exists m m',
    model self = Some m /\
    self' = set_model self (Some m') /\
    same_settings m m'.
Proof.
  unfold fit.
  destruct (model self) as [m|]; [|discriminate].
  destruct (Keras.fit _ _ _ _ _ _ _ _ _ _) as [[hist m']|] eqn:Hfit;
    [|discriminate].
  cbn [rbind snd]. intros [= _ <-].
  exists m, m'. split; [reflexivity|]. split; [reflexivity|].
  now apply keras_fit_settings in Hfit.
Qed.

(** X5.  [fit] changes nothing of the object but its model, and of the
    model neither the input and output tensors nor the loss, optimiser
    and metrics it was compiled with: only the parameters, the
    optimiser's moments and the stop flag can differ. *)
Theorem fit_keeps_settings
    tf (self self' : TCNAE) (X_train X_valid : ndarray)
    (batch_size epochs verbose : Z) (u : unit) :
  fit tf X_train X_valid batch_size epochs verbose self = Ok (u, self') ->
  exists m m',
    model self = Some m /\
    self' = set_model self (Some m') /\
    inputs m' = inputs m /\
    outputs m' = outputs m /\
    compiled_loss m' = compiled_loss m /\
    optimizer m' = optimizer m /\
    compiled_metrics m' = compiled_metrics m.
Proof.
  intros H. apply fit_inv in H. destruct H as (m & m' & Hm & Hs & Hsame).
  exists m, m'. split; [exact Hm|]. split; [exact Hs|exact Hsame].
Qed.

Lemma fit_keeps_settings_witness :
  fit (counting false) batch1 batch1 32 40 1 (stopper false)
    = Ok (tt, after_fit false) /\
  exists m m',
    model (stopper false) = Some m /\
    after_fit false = set_model (stopper false) (Some m') /\
    inputs m' = inputs m /\
    outputs m' = outputs m /\
    compiled_loss m' = compiled_loss m /\
    optimizer m' = optimizer m /\
    compiled_metrics m' = compiled_metrics m.
Proof.
  split; [vm_compute; reflexivity|].
  apply (fit_keeps_settings (counting false) (stopper false)
           (after_fit false) batch1 batch1 32 40 1 tt).
  vm_compute. reflexivity.
Defined.

(** X6.  With the early-stopping flag off, [fit] hands the framework no
    callback, every one of the [epochs] epochs is run (none if [epochs]
    is not positive) and the stop flag of the model stays off. *)
Theorem fit_without_early_stopping
    tf (self self' : TCNAE) (X_train X_valid : ndarray)
    (batch_size epochs verbose : Z) (u : unit) :
  use_early_stopping self = false ->
  fit tf X_train X_valid batch_size epochs verbose self = Ok (u, self') ->
  exists m hist m',
    model self = Some m /\
    Keras.fit tf m X_train X_train batch_size epochs (X_valid, X_valid)
      true None (if 0 <? verbose then 2 else 0) = Ok (hist, m') /\
    model self' = Some m' /\
    length hist = Z.to_nat epochs /\
    stop_training m' = false.
Proof.
  intros Hes. unfold fit. rewrite Hes.
  destruct (model self) as [m|]; [|discriminate].
  destruct (Keras.fit _ _ _ _ _ _ _ _ _ _) as [[hist m']|] eqn:Hfit;
    [|discriminate].
  cbn [rbind snd]. intros [= _ <-].
  exists m, hist, m'. split; [reflexivity|]. split; [exact Hfit|].
  split; [reflexivity|].
  unfold Keras.fit in Hfit.
  destruct (compiled_loss m); [|discriminate].
  destruct ((0 <? epochs) && negb (step_ok tf m X_train X_train));
    [discriminate|].
  destruct ((0 <? epochs) && negb (step_ok tf m _ _)); [discriminate|].
  destruct (run_epochs _ _ _ _ _ _ _ _ _ _ _) as [[h m1] cbs'] eqn:Hrun.
  injection Hfit as <- <-.
  apply run_epochs_no_callbacks in Hrun; [|reflexivity].
  destruct Hrun as (Hlen & Hs & ->). cbn [length] in Hlen.
  split; [lia|exact Hs].
Qed.

Lemma fit_without_early_stopping_witness :
  use_early_stopping plain = false /\
  fit (counting false) batch1 batch1 32 3 1 plain = Ok (tt, after_plain) /\
  exists m hist m',
    model plain = Some m /\
    Keras.fit (counting false) m batch1 batch1 32 3 (batch1, batch1)
      true None (if 0 <? 1 then 2 else 0) = Ok (hist, m') /\
    model after_plain = Some m' /\
    length hist = Z.to_nat 3 /\
    stop_training m' = false.
Proof.
  split; [vm_compute; reflexivity|].
  split; [vm_compute; reflexivity|].
  apply (fit_without_early_stopping (counting false) plain after_plain
           batch1 batch1 32 3 1 tt).
  - vm_compute. reflexivity.
  - vm_compute. reflexivity.
Defined.

(** X7.  With the early-stopping flag on, [fit] never runs more than
    [epochs] epochs; when the callback halts the training, at least
    three epochs were run and the validation loss of the model [fit]
    leaves is the one logged at an epoch before the last two. *)
Theorem early_stopping_halts_late
    tf (self self' : TCNAE) (X_train X_valid : ndarray)
    (batch_size epochs verbose : Z) (u : unit) :
  use_early_stopping self = true ->
  fit tf X_train X_valid batch_size epochs verbose self = Ok (u, self') ->
  exists m hist m',
    model self = Some m /\
    Keras.fit tf m X_train X_train batch_size epochs (X_valid, X_valid)
      true (Some [new_EarlyStopping "val_loss" 2 1e-4 true])
      (if 0 <? verbose then 2 else 0) = Ok (hist, m') /\
    model self' = Some m' /\
    (length hist <= Z.to_nat epochs)%nat /\
    (stop_training m' = true ->
     (3 <= length hist)%nat /\
     exists lg, In lg (firstn (length hist - 2) hist) /\
                validation_loss tf m' (X_valid, X_valid) = val_loss lg).
Proof.
  intros Hes. unfold fit. rewrite Hes.
  destruct (model self) as [m|]; [|discriminate].
  destruct (Keras.fit _ _ _ _ _ _ _ _ _ _) as [[hist m']|] eqn:Hfit;
    [|discriminate].
  cbn [rbind snd]. intros [= _ <-].
  exists m, hist, m'. split; [reflexivity|]. split; [exact Hfit|].
  split; [reflexivity|]. split.
  - apply keras_fit_settings in Hfit. now destruct Hfit.
  - exact (keras_fit_halted tf (X_valid, X_valid) _ _ _ _ _ _ _ _ _ Hfit).
Qed.

Lemma early_stopping_halts_late_witness :
  use_early_stopping (stopper false) = true /\
  fit (counting false) batch1 batch1 32 40 1 (stopper false)
    = Ok (tt, after_fit false) /\
  exists m hist m',
    model (stopper false) = Some m /\
    Keras.fit (counting false) m batch1 batch1 32 40 (batch1, batch1)
      true (Some [new_EarlyStopping "val_loss" 2 1e-4 true])
      (if 0 <? 1 then 2 else 0) = Ok (hist, m') /\
    model (after_fit false) = Some m' /\
    (length hist <= Z.to_nat 40)%nat /\
    (stop_training m' = true ->
     (3 <= length hist)%nat /\
     exists lg, In lg (firstn (length hist - 2) hist) /\
                validation_loss (counting false) m' (batch1, batch1)
                  = val_loss lg).
Proof.
  split; [vm_compute; reflexivity|].
  split; [vm_compute; reflexivity|].
  apply (early_stopping_halts_late (counting false) (stopper false)
           (after_fit false) batch1 batch1 32 40 1 tt).
  - vm_compute. reflexivity.
  - vm_compute. reflexivity.
Defined.

(** X8.  An instance whose sampling factor does not divide 128, the
    default 42 among them, cannot be trained: its reconstruction is
    shorter than the window that [fit] hands over as the target, and
    [fit] raises on every non-empty three-dimensional training batch
    when it is asked for at least one epoch. *)
Theorem fit_needs_dividing_factor
    tf ts dil nf ks ns pad dr fc act lsr pool lr ini lo es v self
    (X_train X_valid : ndarray) (batch_size epochs verbose : Z)
    (b t c : nat) :
  __init__ tf ts dil nf ks ns pad dr fc act lsr pool lr ini lo es v
    = Ok self ->
  128 mod lsr <> 0 ->
  shape X_train = [b; t; c] ->
  (1 <= b)%nat ->
  0 < epochs ->
  exists e,
    fit tf X_train X_valid batch_size epochs verbose self = Raise e.
Proof.
  intros Hinit Hdiv Hx Hb Hep. apply init_shapes in Hinit.
  destruct Hinit as (o & m & Hm & Hi & Ho & Hk & Hs & Hts & Hl & _).
  pose proof (Z.mod_pos_bound 128 lsr (proj1 Hs)) as Hmod.
  set (T' := Z.to_nat (128 - 128 mod lsr)) in *.
  assert (H128 : T' <> 128%nat) by (unfold T'; lia).
  assert (H1 : T' <> 1%nat).
  { unfold T'. intros H.
    assert (Hl128 : lsr = 128) by lia.
    rewrite Hl128 in H. vm_compute in H. discriminate. }
  exists ValueError. unfold fit. rewrite Hm. unfold Keras.fit. rewrite Hl.
  assert (Hfits : fits m X_train X_train = false).
  { unfold fits. rewrite Hi, Ho, Hx, Hk. unfold Input.
    cbn [kshape compatible].
    destruct (Nat.eqb_spec 128 t) as [<-|]; [|reflexivity].
    destruct (Nat.eqb_spec 1 c) as [<-|]; [|reflexivity].
    cbn [andb]. destruct (b =? 0)%nat; [reflexivity|]. cbn [negb andb].
    unfold broadcast_shapes, concrete.
    cbn [map rev app broadcast_rev]. rewrite Nat.eqb_refl.
    destruct (Nat.eqb_spec T' 128) as [|_]; [contradiction|].
    destruct (Nat.eqb_spec T' 1) as [|_]; [contradiction|].
    reflexivity. }
  assert (Hstep : step_ok tf m X_train X_train = false).
  { unfold step_ok. rewrite Hfits, Hx.
    destruct b as [|b']; [lia|]. now rewrite andb_false_r. }
  rewrite Hstep.
  destruct (Z.ltb_spec 0 epochs) as [_|]; [reflexivity|lia].
Qed.

Lemma fit_needs_dividing_factor_witness :
  create (counting false) 1 42 false
    = Ok (instance (counting false) 1 42 false) /\
  128 mod 42 <> 0 /\
  shape batch2 = [2; 128; 1]%nat /\
  (1 <= 2)%nat /\
  0 < 40 /\
  exists e,
    fit (counting false) batch2 batch2 32 40 1
      (instance (counting false) 1 42 false) = Raise e.
Proof.
  split; [vm_compute; reflexivity|].
  split; [discriminate|].
  split; [reflexivity|].
  split; [lia|].
  split; [lia|].
  apply (fit_needs_dividing_factor (counting false) 1 [1; 2; 4; 8; 16] 20 20
           1 "same" 0.00 8 "linear" 42 AveragePooling1D 0.001
           "glorot_normal" "mean_squared_error" false 1
           (instance (counting false) 1 42 false) batch2 batch2 32 40 1
           2 128 1).
  - vm_compute. reflexivity.
  - discriminate.
  - reflexivity.
  - lia.
  - lia.
Defined.

(** Asked for no epoch, [fit] meets no shapes and returns, on the
    default instance too; and under Keras 3 an empty training batch is
    not rejected either. *)
Example fit_without_epochs :
  fit (counting false) batch2 batch2 32 0 1
    (instance (counting false) 1 42 false)
  = Ok (tt, set_model (instance (counting false) 1 42 false)
              (Some (set_stop_training
                       (the_model (counting false)
                          (instance (counting false) 1 42 false)) false))).
Proof. vm_compute. reflexivity. Qed.

Example fit_empty_batch :
  (exists self',
     fit (counting true) {| shape := [0; 128; 1]%nat; data := [] |} batch2
       32 3 1 (instance (counting true) 1 32 false) = Ok (tt, self')) /\
  fit (counting false) {| shape := [0; 128; 1]%nat; data := [] |} batch2
    32 3 1 (instance (counting false) 1 32 false) = Raise ValueError.
Proof.
  split; [eexists|]; vm_compute; reflexivity.
Qed.

(** X9.  [build_model] discards what was learned: called on the object
    a [fit] has left, it gives what it gives on the object before the
    training. *)
Theorem build_model_after_fit
    tf (self self' : TCNAE) (X_train X_valid : ndarray)
    (batch_size epochs verbose verbose' : Z) (u : unit) :
  fit tf X_train X_valid batch_size epochs verbose self = Ok (u, self') ->
  build_model tf verbose' self' = build_model tf verbose' self.
Proof.
  intros H. apply fit_inv in H.
  destruct H as (m & m' & _ & -> & _). apply build_model_ignores_model.
Qed.

Lemma build_model_after_fit_witness :
  fit (counting false) batch1 batch1 32 40 1 (stopper false)
    = Ok (tt, after_fit false) /\
  build_model (counting false) 1 (after_fit false)
    = build_model (counting false) 1 (stopper false).
Proof.
  split; [vm_compute; reflexivity|].
  apply (build_model_after_fit (counting false) (stopper false)
           (after_fit false) batch1 batch1 32 40 1 1 tt).
  vm_compute. reflexivity.
Defined.

(** The scores of an object whose model has the endpoints that
    [build_model] gives it. *)
Lemma predict_of_model tf (self : TCNAE) (m : Model) (o : KerasTensor)
    (T' d b : nat) (x : ndarray) :
  model self = Some m ->
  inputs m = [Input [None; Some 128%nat; Some 1%nat]] ->
  outputs m = [o] ->
  kshape o = [None; Some T'; Some d] ->
  (T' <= 128)%nat ->
  shape x = [b; 128%nat; 1%nat] ->
  (1 <= b)%nat ->
  exists mse,
    predict tf x self = Ok (mse, self) /\
    shape mse = error_shape [b; 128%nat; d].
Proof.
  intros Hm Hi Ho Hk HT Hx Hb.
  destruct (keras_predict_built tf m o T' d b x Hi Ho Hk Hx Hb)
    as (X_rec & HX & HXs).
  destruct (pad_shape X_rec b T' d 128 HXs HT) as (P & HP & HPs).
  assert (Hne : 128%nat <> 1%nat) by discriminate.
  destruct (error_of_shape P x b 128 d HPs Hx Hne)
    as (mse & Hmse & Hshape & _).
  exists mse. split; [|exact Hshape].
  rewrite predict_factors. unfold padded_reconstruction, shape_at.
  rewrite Hm, HX. cbn [rbind]. rewrite Hx, HXs. cbn [rbind nth_error].
  rewrite HP. cbn [rbind fst snd]. rewrite Hmse. reflexivity.
Qed.

(** X10.  Training does not change what [predict] accepts or the shape
    of what it returns: an instance that the constructor returned and
    [fit] has trained scores every non-empty batch of shape
    (batch, 128, 1), is left as it was by the call, and returns the
    shape an untrained instance returns. *)
Theorem predict_after_fit
    tf ts dil nf ks ns pad dr fc act lsr pool lr ini lo es v self
    (self' : TCNAE) (X_train X_valid x : ndarray)
    (batch_size epochs verbose : Z) (u : unit) (b : nat) :
  __init__ tf ts dil nf ks ns pad dr fc act lsr pool lr ini lo es v
    = Ok self ->
  fit tf X_train X_valid batch_size epochs verbose self = Ok (u, self') ->
  shape x = [b; 128%nat; 1%nat] ->
  (1 <= b)%nat ->
  exists mse,
    predict tf x self' = Ok (mse, self') /\
    shape mse = error_shape [b; 128%nat; Z.to_nat ts].
Proof.
  intros Hinit Hfit Hx Hb. apply init_inv in Hinit.
  destruct Hinit as (_ & _ & _ & o & T' & m & Hm & Hi & Ho & Hk & HT & _).
  apply fit_inv in Hfit.
  destruct Hfit as (m0 & m' & Hm0 & -> & Hi' & Ho' & _).
  rewrite Hm in Hm0. injection Hm0 as <-.
  apply (predict_of_model tf _ m' o T' (Z.to_nat ts) b x);
    try assumption; try reflexivity; congruence.
Qed.

Lemma predict_after_fit_witness :
  create (counting false) 1 32 true = Ok (stopper false) /\
  fit (counting false) batch1 batch1 32 40 1 (stopper false)
    = Ok (tt, after_fit false) /\
  shape batch2 = [2; 128; 1]%nat /\
  (1 <= 2)%nat /\
  exists mse,
    predict (counting false) batch2 (after_fit false)
      = Ok (mse, after_fit false) /\
    shape mse = error_shape [2; 128; Z.to_nat 1]%nat.
Proof.
  split; [vm_compute; reflexivity|].
  split; [vm_compute; reflexivity|].
  split; [reflexivity|].
  split; [lia|].
  apply (predict_after_fit (counting false) 1 [1; 2; 4; 8; 16] 20 20
           1 "same" 0.00 8 "linear" 32 AveragePooling1D 0.001
           "glorot_normal" "mean_squared_error" true 1
           (stopper false) (after_fit false) batch1 batch1 batch2
           32 40 1 tt 2).
  - vm_compute. reflexivity.
  - vm_compute. reflexivity.
  - reflexivity.
  - lia.
Defined.

End TrainerExtras.

(** ** The scores, entry by entry *)

Module ScoreFacts.

Import Numpy Keras Tcnae Properties Examples.
Import NumpyFacts BuilderFacts PredictorFacts PredictorExtras.
Open Scope nat_scope.

Lemma firstn_seq_le (n : nat) :
  forall s len, n <= len -> firstn n (seq s len) = seq s n.
Proof.
  induction n as [|n IH]; intros s len Hn; [reflexivity|].
  destruct len as [|len]; [lia|].
  cbn [seq firstn]. f_equal. apply IH. lia.
Qed.

Lemma map_seq_from {A} (f : nat -> A) (n : nat) :
  forall s, map f (seq s n) = map (fun t => f (s + t)) (seq 0 n).
Proof.
  induction n as [|n IH]; intros s; [reflexivity|].
  cbn [seq map]. rewrite Nat.add_0_r. f_equal.
  rewrite (IH (S s)), <- seq_shift, map_map.
  apply map_ext. intros t. f_equal. lia.
Qed.

Lemma nth_chunks (n : nat) :
  forall N l i, i < N ->
  nth i (chunks N n l) [] = firstn n (skipn (i * n) l).
Proof.
  induction N as [|N IH]; intros l i Hi; [lia|].
  cbn [chunks]. destruct i as [|i]; [reflexivity|].
  cbn [nth]. rewrite IH by lia. rewrite skipn_skipn.
  do 2 f_equal. lia.
Qed.

(** Entry [i] of the means of the blocks of length [n] of a list given
    by its entries. *)
Lemma nth_mean_chunks (f : nat -> Q) (N n i : nat) :
  i < N ->
  nth i (map (mean_of n) (chunks N n (map f (seq 0 (N * n))))) 0%Q
  = mean_of n (map (fun t => f (i * n + t)) (seq 0 n)).
Proof.
  intros Hi.
  rewrite (nth_indep _ 0%Q (mean_of n []))
    by (now rewrite length_map, chunks_length).
  rewrite map_nth, nth_chunks by exact Hi.
  rewrite skipn_map, firstn_map, skipn_seq, firstn_seq_le by nia.
  cbn [Nat.add]. now rewrite map_seq_from.
Qed.

(** An operand with one channel broadcast along the channels of the
    result is read at the position of the sequence and the step. *)
Lemma offset_channel (r : list nat) (d k : nat) :
  k < d * size_of r -> offset_rev (d :: r) (1 :: r) k = k / d.
Proof.
  intros Hk. cbn [offset_rev Nat.eqb].
  assert (Hd : d <> 0) by (intros ->; lia).
  rewrite offset_same by (apply Nat.Div0.div_lt_upper_bound; exact Hk).
  lia.
Qed.

Lemma squared_difference_entry (P x : ndarray) (b T d i t j : nat) :
  shape P = [b; T; d] -> shape x = [b; T; 1] ->
  i < b -> t < T -> j < d ->
  squared_difference P x [b; T; d] ((i * T + t) * d + j)
  = squared_error P x i t j.
Proof.
  intros HP Hx Hi Ht Hj.
  assert (Hit : i * T + t + 1 <= b * T) by nia.
  assert (Hk : (i * T + t) * d + j < d * (T * (b * 1))).
  { apply (Nat.mul_le_mono_r _ _ d) in Hit. nia. }
  unfold squared_difference, squared_error, at3. rewrite HP, Hx.
  assert (EP : item P [b; T; d] ((i * T + t) * d + j)
               = nth ((i * T + t) * d + j) (data P) 0%Q).
  { rewrite <- HP. apply item_same_shape. rewrite HP.
    unfold size_of. cbn [fold_right]. nia. }
  assert (Ex : item x [b; T; d] ((i * T + t) * d + j)
               = nth ((i * T + t) * 1 + 0) (data x) 0%Q).
  { unfold item. rewrite Hx. cbn [rev app].
    rewrite offset_channel by (unfold size_of; cbn [fold_right]; exact Hk).
    f_equal. rewrite Nat.div_add_l by lia. rewrite Nat.div_small by lia.
    lia. }
  now rewrite EP, Ex.
Qed.

Lemma mean_last_data (a r : ndarray) :
  mean_last a = Ok r ->
  data r = map (mean_of (last (shape a) 0))
               (chunks (size_of (removelast (shape a))) (last (shape a) 0)
                       (data a)).
Proof.
  unfold mean_last. destruct (shape a); [discriminate|].
  now intros [= <-].
Qed.

Lemma squeezed_blocks (b T d : nat) :
  T <> 1 ->
  let s := filter (fun d => negb (d =? 1)) [b; T; d] in
  s <> [] /\
  last s 0 = (if d =? 1 then T else d) /\
  size_of (removelast s) = (if d =? 1 then b else b * T).
Proof.
  intros HT. cbn [filter].
  destruct (Nat.eqb_spec T 1) as [|_]; [contradiction|].
  destruct (Nat.eqb_spec b 1) as [->|Hb];
    destruct (Nat.eqb_spec d 1) as [->|Hd]; cbn [negb last removelast];
    unfold size_of; cbn [fold_right]; (split; [discriminate|]);
    split; (reflexivity || lia).
Qed.

(** The entries of the error array of a padded reconstruction of shape
    [(b, T, d)] against an input of shape [(b, T, 1)]: means over the
    steps when there is one channel, over the channels otherwise. *)
Lemma error_of_entries (P x mse : ndarray) (b T d : nat) :
  shape P = [b; T; d] -> shape x = [b; T; 1] -> T <> 1 ->
  error_of P x = Ok mse ->
  (d = 1 -> forall i, i < b ->
     nth i (data mse) 0%Q
     = mean_of T (map (fun t => squared_error P x i t 0) (seq 0 T))) /\
  (d <> 1 -> forall i t, i < b -> t < T ->
     nth (i * T + t) (data mse) 0%Q
     = mean_of d (map (fun j => squared_error P x i t j) (seq 0 d))).
Proof.
  intros HP Hx HT. unfold error_of, subtract.
  rewrite HP, Hx, broadcast_channel. cbn [rbind].
  intros Hmean. apply mean_last_data in Hmean.
  cbn [square squeeze shape data] in Hmean.
  destruct (squeezed_blocks b T d HT) as (_ & Hlast & Hsize).
  cbn zeta in Hlast, Hsize.
  rewrite Hlast, Hsize, map_map in Hmean. rewrite Hmean.
  change (map _ (seq 0 (size_of [b; T; d])))
    with (map (squared_difference P x [b; T; d])
              (seq 0 (size_of [b; T; d]))).
  split.
  - intros -> i Hi. cbn [Nat.eqb].
    replace (size_of [b; T; 1]) with (b * T)
      by (unfold size_of; cbn [fold_right]; lia).
    rewrite nth_mean_chunks by exact Hi. f_equal.
    apply map_ext_in. intros t Ht. apply in_seq in Ht.
    rewrite <- (squared_difference_entry P x b T 1 i t 0 HP Hx) by lia.
    f_equal. lia.
  - intros Hd i t Hi Ht.
    destruct (Nat.eqb_spec d 1) as [|_]; [contradiction|].
    replace (size_of [b; T; d]) with (b * T * d)
      by (unfold size_of; cbn [fold_right]; lia).
    rewrite nth_mean_chunks by nia. f_equal.
    apply map_ext_in. intros j Hj. apply in_seq in Hj.
    apply (squared_difference_entry P x b T d i t j HP Hx); lia.
Qed.

(** The stages of [predict] on an instance the constructor returned. *)
Lemma predict_pipeline
    tf ts dil nf ks ns pad dr fc act lsr pool lr ini lo es v self
    (b : nat) (x : ndarray) :
  __init__ tf ts dil nf ks ns pad dr fc act lsr pool lr ini lo es v
    = Ok self ->
  shape x = [b; 128; 1] ->
  1 <= b ->
  exists P mse,
    padded_reconstruction tf x self = Ok (P, self) /\
    shape P = [b; 128; Z.to_nat ts] /\
    error_of P x = Ok mse /\
    predict tf x self = Ok (mse, self).
Proof.
  intros Hinit Hx Hb. apply init_inv in Hinit.
  destruct Hinit as (_ & _ & _ & o & T' & m & Hm & Hi & Ho & Hk & HT & Hts & _).
  destruct (keras_predict_built tf m o T' (Z.to_nat ts) b x Hi Ho Hk Hx Hb)
    as (X_rec & HX & HXs).
  destruct (pad_shape X_rec b T' (Z.to_nat ts) 128 HXs HT) as (P & HP & HPs).
  assert (Hne : 128 <> 1) by discriminate.
  destruct (error_of_shape P x b 128 (Z.to_nat ts) HPs Hx Hne)
    as (mse & Hmse & _ & _).
  assert (Hpad : padded_reconstruction tf x self = Ok (P, self)).
  { unfold padded_reconstruction, shape_at.
    rewrite Hm, HX. cbn [rbind]. rewrite Hx, HXs. cbn [rbind nth_error].
    rewrite HP. reflexivity. }
  exists P, mse. split; [exact Hpad|]. split; [exact HPs|].
  split; [exact Hmse|].
  rewrite predict_factors, Hpad. cbn [rbind fst snd]. rewrite Hmse.
  reflexivity.
Qed.

(** X11.  For a univariate instance the score of sequence [i] of a batch
    is the mean over the 128 time steps of the squared difference
    between the padded reconstruction and the input: one score per
    sequence. *)
Theorem univariate_scores
    tf dil nf ks ns pad dr fc act lsr pool lr ini lo es v self
    (b : nat) (x : ndarray) :
  __init__ tf 1 dil nf ks ns pad dr fc act lsr pool lr ini lo es v
    = Ok self ->
  shape x = [b; 128; 1] ->
  1 <= b ->
  exists P mse,
    padded_reconstruction tf x self = Ok (P, self) /\
    predict tf x self = Ok (mse, self) /\
    forall i, i < b ->
      nth i (data mse) 0%Q
      = mean_of 128 (map (fun t => squared_error P x i t 0) (seq 0 128)).
Proof.
  intros Hinit Hx Hb.
  destruct (predict_pipeline tf 1%Z dil nf ks ns pad dr fc act lsr pool lr
              ini lo es v self b x Hinit Hx Hb)
    as (P & mse & Hpad & HPs & Herr & Hpred).
  exists P, mse. split; [exact Hpad|]. split; [exact Hpred|].
  change (Z.to_nat 1) with 1 in HPs.
  assert (Hne : 128 <> 1) by discriminate.
  destruct (error_of_entries P x mse b 128 1 HPs Hx Hne Herr) as [H1 _].
  exact (H1 eq_refl).
Qed.

Lemma univariate_scores_witness :
  create (counting false) 1 42 false
    = Ok (instance (counting false) 1 42 false) /\
  shape batch2 = [2; 128; 1] /\
  1 <= 2 /\
  exists P mse,
    padded_reconstruction (counting false) batch2
        (instance (counting false) 1 42 false)
      = Ok (P, instance (counting false) 1 42 false) /\
    predict (counting false) batch2 (instance (counting false) 1 42 false)
      = Ok (mse, instance (counting false) 1 42 false) /\
    forall i, i < 2 ->
      nth i (data mse) 0%Q
      = mean_of 128
          (map (fun t => squared_error P batch2 i t 0) (seq 0 128)).
Proof.
  split; [vm_compute; reflexivity|].
  split; [reflexivity|].
  split; [lia|].
  apply (univariate_scores (counting false) [1; 2; 4; 8; 16]%Z 20%Z 20%Z
           1%Z "same" 0.00%Q 8%Z "linear" 42%Z AveragePooling1D 0.001%Q
           "glorot_normal" "mean_squared_error" false 1%Z
           (instance (counting false) 1 42 false) 2 batch2).
  - vm_compute. reflexivity.
  - reflexivity.
  - lia.
Defined.

(** X12.  For an instance with [ts_dimension] of two or more, the score
    of step [t] of sequence [i] is the mean over the output channels of
    the squared difference between the padded reconstruction and the
    single channel of the input: one score per time step. *)
Theorem multivariate_scores
    tf ts dil nf ks ns pad dr fc act lsr pool lr ini lo es v self
    (b : nat) (x : ndarray) :
  __init__ tf ts dil nf ks ns pad dr fc act lsr pool lr ini lo es v
    = Ok self ->
  (2 <= ts)%Z ->
  shape x = [b; 128; 1] ->
  1 <= b ->
  exists P mse,
    padded_reconstruction tf x self = Ok (P, self) /\
    predict tf x self = Ok (mse, self) /\
    forall i t, i < b -> t < 128 ->
      nth (i * 128 + t) (data mse) 0%Q
      = mean_of (Z.to_nat ts)
          (map (fun j => squared_error P x i t j) (seq 0 (Z.to_nat ts))).
Proof.
  intros Hinit Hts Hx Hb.
  destruct (predict_pipeline tf ts dil nf ks ns pad dr fc act lsr pool lr
              ini lo es v self b x Hinit Hx Hb)
    as (P & mse & Hpad & HPs & Herr & Hpred).
  exists P, mse. split; [exact Hpad|]. split; [exact Hpred|].
  assert (Hne : 128 <> 1) by discriminate.
  destruct (error_of_entries P x mse b 128 (Z.to_nat ts) HPs Hx Hne Herr)
    as [_ H2].
  apply H2. lia.
Qed.

Lemma multivariate_scores_witness :
  create (counting false) 3 42 false
    = Ok (instance (counting false) 3 42 false) /\
  (2 <= 3)%Z /\
  shape batch2 = [2; 128; 1] /\
  1 <= 2 /\
  exists P mse,
    padded_reconstruction (counting false) batch2
        (instance (counting false) 3 42 false)
      = Ok (P, instance (counting false) 3 42 false) /\
    predict (counting false) batch2 (instance (counting false) 3 42 false)
      = Ok (mse, instance (counting false) 3 42 false) /\
    forall i t, i < 2 -> t < 128 ->
      nth (i * 128 + t) (data mse) 0%Q
      = mean_of (Z.to_nat 3)
          (map (fun j => squared_error P batch2 i t j)
               (seq 0 (Z.to_nat 3))).
Proof.
  split; [vm_compute; reflexivity|].
  split; [lia|].
  split; [reflexivity|].
  split; [lia|].
  apply (multivariate_scores (counting false) 3%Z [1; 2; 4; 8; 16]%Z 20%Z
           20%Z 1%Z "same" 0.00%Q 8%Z "linear" 42%Z AveragePooling1D
           0.001%Q "glorot_normal" "mean_squared_error" false 1%Z
           (instance (counting false) 3 42 false) 2 batch2).
  - vm_compute. reflexivity.
  - lia.
  - reflexivity.
  - lia.
Defined.

(** X13.  The last [128 mod latent_sample_rate] time steps of every
    window are never reconstructed: whatever the network computes, the
    padded reconstruction that [predict] scores is zero there, in every
    sequence and channel (for the default factor 42, the last two
    steps). *)
Theorem unreconstructed_tail
    tf ts dil nf ks ns pad dr fc act lsr pool lr ini lo es v self
    (b : nat) (x : ndarray) :
  __init__ tf ts dil nf ks ns pad dr fc act lsr pool lr ini lo es v
    = Ok self ->
  shape x = [b; 128; 1] ->
  1 <= b ->
  exists P,
    padded_reconstruction tf x self = Ok (P, self) /\
    forall i t j, i < b -> j < Z.to_nat ts -> t < 128 ->
      (128 - 128 mod lsr <= Z.of_nat t)%Z ->
      at3 P i t j = 0%Q.
Proof.
  intros Hinit Hx Hb. apply init_shapes in Hinit.
  destruct Hinit as (o & m & Hm & Hi & Ho & Hk & Hs & _).
  pose proof (Z.mod_pos_bound 128 lsr (proj1 Hs)) as Hmod.
  set (T' := Z.to_nat (128 - 128 mod lsr)) in *.
  destruct (keras_predict_built tf m o T' (Z.to_nat ts) b x Hi Ho Hk Hx Hb)
    as (X_rec & HX & HXs).
  assert (Hn : shape_at x 1 = Ok 128)
    by (unfold shape_at; rewrite Hx; reflexivity).
  assert (HT : T' <= 128) by (unfold T'; lia).
  destruct (padded_entries tf self m x X_rec b T' (Z.to_nat ts) 128
              Hm HX HXs Hn HT) as (P & Hpad & _ & Hent).
  exists P. split; [exact Hpad|].
  intros i t j Hi' Hj Ht Htail. rewrite (Hent i t j Hi' Ht Hj).
  destruct (Nat.ltb_spec t T') as [Hlt|_]; [|reflexivity].
  unfold T' in Hlt. lia.
Qed.

Lemma unreconstructed_tail_witness :
  create (counting false) 1 42 false
    = Ok (instance (counting false) 1 42 false) /\
  shape batch2 = [2; 128; 1] /\
  1 <= 2 /\
  exists P,
    padded_reconstruction (counting false) batch2
        (instance (counting false) 1 42 false)
      = Ok (P, instance (counting false) 1 42 false) /\
    forall i t j, i < 2 -> j < Z.to_nat 1 -> t < 128 ->
      (128 - 128 mod 42 <= Z.of_nat t)%Z ->
      at3 P i t j = 0%Q.
Proof.
  split; [vm_compute; reflexivity|].
  split; [reflexivity|].
  split; [lia|].
  apply (unreconstructed_tail (counting false) 1%Z [1; 2; 4; 8; 16]%Z 20%Z
           20%Z 1%Z "same" 0.00%Q 8%Z "linear" 42%Z AveragePooling1D
           0.001%Q "glorot_normal" "mean_squared_error" false 1%Z
           (instance (counting false) 1 42 false) 2 batch2).
  - vm_compute. reflexivity.
  - reflexivity.
  - lia.
Defined.

(** X14.  When the sampling factor divides 128 the padding adds
    nothing: the array [predict] scores is the reconstruction of the
    model itself. *)
Theorem full_length_reconstruction
    tf ts dil nf ks ns pad dr fc act lsr pool lr ini lo es v self
    (b : nat) (x : ndarray) :
  __init__ tf ts dil nf ks ns pad dr fc act lsr pool lr ini lo es v
    = Ok self ->
  (128 mod lsr = 0)%Z ->
  shape x = [b; 128; 1] ->
  1 <= b ->
  exists m X_rec,
    model self = Some m /\
    Keras.predict tf m x = Ok X_rec /\
    padded_reconstruction tf x self = Ok (X_rec, self).
Proof.
  intros Hinit Hdiv Hx Hb. apply init_shapes in Hinit.
  destruct Hinit as (o & m & Hm & Hi & Ho & Hk & _).
  rewrite Hdiv in Hk. change (Z.to_nat (128 - 0)) with 128 in Hk.
  destruct (keras_predict_built tf m o 128 (Z.to_nat ts) b x Hi Ho Hk Hx Hb)
    as (X_rec & HX & HXs).
  pose proof (keras_predict_well_formed tf m x X_rec HX) as Hwf.
  exists m, X_rec. split; [exact Hm|]. split; [exact HX|].
  unfold padded_reconstruction, shape_at.
  rewrite Hm, HX. cbn [rbind]. rewrite Hx, HXs. cbn [rbind nth_error].
  rewrite Z.sub_diag, (pad_nothing X_rec b 128 (Z.to_nat ts) Hwf HXs).
  reflexivity.
Qed.

Lemma full_length_reconstruction_witness :
  create (counting false) 1 32 false = Ok plain /\
  (128 mod 32 = 0)%Z /\
  shape batch2 = [2; 128; 1] /\
  1 <= 2 /\
  exists m X_rec,
    model plain = Some m /\
    Keras.predict (counting false) m batch2 = Ok X_rec /\
    padded_reconstruction (counting false) batch2 plain = Ok (X_rec, plain).
Proof.
  split; [vm_compute; reflexivity|].
  split; [reflexivity|].
  split; [reflexivity|].
  split; [lia|].
  apply (full_length_reconstruction (counting false) 1%Z [1; 2; 4; 8; 16]%Z
           20%Z 20%Z 1%Z "same" 0.00%Q 8%Z "linear" 32%Z AveragePooling1D
           0.001%Q "glorot_normal" "mean_squared_error" false 1%Z
           plain 2 batch2).
  - vm_compute. reflexivity.
  - reflexivity.
  - reflexivity.
  - lia.
Defined.

End ScoreFacts.

(** ** Halting and completing *)

Module HaltingFacts.

Import Numpy Keras Tcnae Properties Examples TrainerExtras.
Open Scope Z_scope.

Lemma callbacks_on_train_end_stop tf cbs :
  forall m, stop_training (callbacks_on_train_end tf cbs m) = stop_training m.
Proof.
  unfold callbacks_on_train_end.
  induction cbs as [|e cbs IH]; intros m; cbn [fold_left]; [reflexivity|].
  rewrite IH. unfold on_train_end.
  destruct (best_weights e); [|reflexivity].
  destruct (restore_best_weights e && keras3 tf); reflexivity.
Qed.

(** The epochs either end with the stop flag set or are all run. *)
Lemma run_epochs_completes tf x y batch_size shuffle vd n :
  forall epoch m cbs hist hist' m' cbs',
  stop_training m = false ->
  run_epochs tf n epoch m x y batch_size shuffle vd cbs hist
    = (hist', m', cbs') ->
  stop_training m' = false ->
  length hist' = (length hist + n)%nat.
Proof.
  induction n as [|n IH]; intros epoch m cbs hist hist' m' cbs' Hs;
    cbn [run_epochs].
  - intros [= <- <- <-] _. lia.
  - set (m1 := set_trained m _).
    destruct (callbacks_on_epoch_end tf cbs epoch _ m1) as [cbs1 m2].
    destruct (stop_training m2) eqn:Hs2.
    + intros [= <- <- <-] Hs'. congruence.
    + intros Hrun Hs'. rewrite (IH _ _ _ _ _ _ _ Hs2 Hrun Hs').
      rewrite length_app. cbn [length]. lia.
Qed.

Lemma keras_fit_completes tf m x y batch_size epochs vd shuffle cbs v hist m' :
  Keras.fit tf m x y batch_size epochs vd shuffle cbs v = Ok (hist, m') ->
  (stop_training m' = false -> length hist = Z.to_nat epochs) /\
  (cbs = None -> stop_training m' = false).
Proof.
  unfold Keras.fit.
  destruct (compiled_loss m); [|discriminate].
  destruct ((0 <? epochs) && negb (step_ok tf m x y)); [discriminate|].
  destruct ((0 <? epochs) && negb (step_ok tf m (fst vd) (snd vd)));
    [discriminate|].
  destruct (run_epochs _ _ _ _ _ _ _ _ _ _ _) as [[h m1] cbs'] eqn:Hrun.
  intros [= <- <-]. rewrite callbacks_on_train_end_stop.
  assert (Hs0 : stop_training (set_stop_training m false) = false)
    by reflexivity.
  split.
  - intros Hs.
    now rewrite (run_epochs_completes tf _ _ _ _ _ _ _ _ _ _ _ _ _
                   Hs0 Hrun Hs).
  - intros ->.
    apply (run_epochs_no_callbacks tf) in Hrun; [|reflexivity].
    now destruct Hrun as (_ & Hs & _).
Qed.

(** X15.  A call of [fit] that returns has either run every requested
    epoch or left the stop flag of the model set, and the flag is set
    only when the instance has early stopping enabled. *)
Theorem fit_halts_or_completes
    tf (self self' : TCNAE) (X_train X_valid : ndarray)
    (batch_size epochs verbose : Z) (u : unit) :
  fit tf X_train X_valid batch_size epochs verbose self = Ok (u, self') ->
  exists m hist m',
    model self = Some m /\
    Keras.fit tf m X_train X_train batch_size epochs (X_valid, X_valid)
      true (callbacks_of self) (if 0 <? verbose then 2 else 0)
      = Ok (hist, m') /\
    model self' = Some m' /\
    (stop_training m' = false -> length hist = Z.to_nat epochs) /\
    (stop_training m' = true -> use_early_stopping self = true).
Proof.
  unfold fit. fold (callbacks_of self).
  destruct (model self) as [m|]; [|discriminate].
  destruct (Keras.fit _ _ _ _ _ _ _ _ _ _) as [[hist m']|] eqn:Hfit;
    [|discriminate].
  cbn [rbind snd]. intros [= _ <-].
  exists m, hist, m'. split; [reflexivity|]. split; [exact Hfit|].
  split; [reflexivity|].
  apply keras_fit_completes in Hfit. destruct Hfit as [Hall Hnone].
  split; [exact Hall|].
  intros Hs. unfold callbacks_of in Hnone.
  destruct (use_early_stopping self); [reflexivity|].
  specialize (Hnone eq_refl). congruence.
Qed.

Lemma fit_halts_or_completes_witness :
  fit (counting false) batch1 batch1 32 40 1 (stopper false)
    = Ok (tt, after_fit false) /\
  exists m hist m',
    model (stopper false) = Some m /\
    Keras.fit (counting false) m batch1 batch1 32 40 (batch1, batch1)
      true (callbacks_of (stopper false)) (if 0 <? 1 then 2 else 0)
      = Ok (hist, m') /\
    model (after_fit false) = Some m' /\
    (stop_training m' = false -> length hist = Z.to_nat 40) /\
    (stop_training m' = true -> use_early_stopping (stopper false) = true).
Proof.
  split; [vm_compute; reflexivity|].
  apply (fit_halts_or_completes (counting false) (stopper false)
           (after_fit false) batch1 batch1 32 40 1 tt).
  vm_compute. reflexivity.
Defined.

End HaltingFacts.
